(** * streamlink/stream/dash.py: DASH segment scheduling, fetching and
      stream selection

    A shallow embedding of [DASHStreamWriter], [DASHStreamWorker] and
    [DASHStream] of [streamlink.stream.dash], and the properties of their
    control logic.

    Conventions of the embedding.
    - Python [int] is [Z]; a [float] holding seconds, a bandwidth or the
      back-off factor is the rational [Q] it denotes (exact arithmetic, no
      rounding of products); a [datetime] is a [Z] (microseconds).
    - The attributes the methods read and write ([self.mpd], the reader's
      buffer) and the environment they talk to (the [closed] flag set by
      other threads, the HTTP session, the clock) live in one [World];
      methods are computations in the state-and-exception monad [M].
    - [log.*] calls have no effect on the control flow and are left out. *)

From Stdlib Require Import ZArith QArith Qabs String Ascii List Lia DecimalString
  DecimalPos DecimalN.
From stdpp Require Import base option list gmap strings.

Local Open Scope string_scope.
Local Open Scope list_scope.
Local Open Scope Z_scope.

(* ===================================================================== *)
(** ** Python helpers *)
(* ===================================================================== *)

Module Py.

(** Exceptions raised by the code and its collaborators. *)
Inductive Exn :=
| StreamError
| PluginError (msg : string)
| TypeError
| ValueError
| AttributeError
| IndexError.

(** [max(a, b)]: the first argument unless the second is strictly greater. *)
Definition max (a b : Q) : Q := if Qlt_le_dec a b then b else a.

(** [x or d] on numbers: [x] when it is non-zero. *)
Definition or_ (x d : Q) : Q := if Qeq_bool x 0 then d else x.

(** Truth value of an optional integer ([None] and [0] are false). *)
Definition truthyZ (x : option Z) : bool :=
  match x with
  | Some n => negb (n =? 0)
  | None => false
  end.

(** [s.startswith(p)]. *)
Definition startswith (s p : string) : bool := String.prefix p s.

(** ['+'.join(parts)]. *)
Definition join (sep : string) (parts : list string) : string :=
  String.concat sep parts.

(** Decimal digits of a non-negative integer. *)
Definition digits (n : Z) : string :=
  NilZero.string_of_uint (N.to_uint (Z.to_N n)).

(** Round to the nearest integer, ties to even. *)
Definition round_half_even (q : Q) : Z :=
  let d := Z.pos (Qden q) in
  let fl := Qnum q / d in
  let r := Qnum q mod d in
  if 2 * r <? d then fl
  else if d <? 2 * r then fl + 1
  else if Z.even fl then fl else fl + 1.

(** ["{:0.0f}".format(x)] for a number [x]: no decimals, sign kept. *)
Definition format_0f (x : Q) : string :=
  (if Qlt_le_dec x 0 then "-" else "") +:+ digits (round_half_even (Qabs x)).

(** [s.rsplit(sep, 1)] for a one-character separator: split at the last
    occurrence, or the string alone when there is none. *)
Fixpoint rsplit1 (sep : ascii) (s : string) : list string :=
  match s with
  | EmptyString => [EmptyString]
  | String c rest =>
      match rsplit1 sep rest with
      | [hd; tl] => [String c hd; tl]
      | _ => if Ascii.eqb c sep then [EmptyString; rest] else [s]
      end
  end.

End Py.

(* ===================================================================== *)
(** ** Data model: the manifest (streamlink.stream.dash_manifest) *)
(* ===================================================================== *)

(** Modelled from the spec: [Segment] of dash_manifest, a url and the
    earliest instant at which it can be fetched. *)
Module Segment.
Record t := mk { url : string; available_at : Z }.
End Segment.

(** Modelled from the spec: [Representation] of dash_manifest: a stable id,
    a media type, optional height and bandwidth, and [segments(init=...)],
    the sequence of segments of one scheduling cycle. *)
Module Representation.
Record t := mk {
  id : string;
  mimeType : string;
  height : option Z;
  bandwidth : option Q;
  segments : bool -> list Segment.t
}.
End Representation.

(** Modelled from the spec: [AdaptationSet] of dash_manifest. *)
Module AdaptationSet.
Record t := mk {
  contentProtection : bool;
  representations : list Representation.t
}.
End AdaptationSet.

(** Modelled from the spec: [Period] of dash_manifest; [duration] is
    [duration.total_seconds()]. *)
Module Period.
Record t := mk {
  duration : Q;
  adaptationSets : list AdaptationSet.t
}.
End Period.

(** Timeline continuity state, carried from one snapshot to the next. *)
Definition Timelines := list (string * Z).

(** Modelled from the spec: what the parsed manifest document itself says. *)
Module Doc.
Record t := mk {
  type_ : string;
  publishTime : Z;
  minimumUpdatePeriod : Q;
  periods : list Period.t
}.
End Doc.

(** Modelled from the spec: [MPD] of dash_manifest: the document together
    with the [base_url], [url] and [timelines] given to the constructor. *)
Module MPD.
Record t := mk {
  type_ : string;
  publishTime : Z;
  minimumUpdatePeriod : Q;
  periods : list Period.t;
  base_url : string;
  url : string;
  timelines : Timelines
}.

(** [MPD(doc, base_url=..., url=..., timelines=...)]. *)
Definition new (doc : Doc.t) (base_url url : string) (timelines : Timelines) : t :=
  {| type_ := Doc.type_ doc;
     publishTime := Doc.publishTime doc;
     minimumUpdatePeriod := Doc.minimumUpdatePeriod doc;
     periods := Doc.periods doc;
     base_url := base_url;
     url := url;
     timelines := timelines |}.
End MPD.

(* ===================================================================== *)
(** ** The world and the monad of effects *)
(* ===================================================================== *)

Definition Chunk := list Byte.byte.

(** Modelled from the spec: an HTTP response: the final url, the body as
    [iter_content(chunk_size)] cuts it, and what parsing the body as a
    manifest gives (an exception on malformed content). *)
Module Response.
Record t := mk {
  url : string;
  iter_content : Z -> list Chunk;
  manifest : Py.Exn + Doc.t
}.
End Response.

(** What happens, in order. *)
Inductive Event :=
| EYield (segment : Segment.t)
| ESleeper (duration : Q)
| ESleepUntil (t : Z)
| EWaitFree
| EGet (url : string) (timeout : option Q)
| EOpenReader (representation_id : string)
| EMux (video audio : string).

Record World := mkWorld {
  closed_at : nat -> bool;              (* [self.closed] at its k-th read *)
  closed_reads : nat;
  http_at : nat -> option Response.t;   (* reply to the k-th GET; [None]: transport failure *)
  http_gets : nat;
  clock : Z;                            (* [datetime.datetime.now(tz=utc)] *)
  buffer : list Byte.byte;              (* [reader.buffer] *)
  self_mpd : MPD.t;                     (* [self.mpd] of the worker *)
  trace : list Event
}.

Inductive Res (A : Type) :=
| Return (a : A)              (* a value *)
| Raise (e : Py.Exn)         (* an exception *)
| OutOfFuel.                 (* still running when the fuel ran out *)
Arguments Return {A} a.
Arguments Raise {A} e.
Arguments OutOfFuel {A}.

Definition M (A : Type) : Type := World -> Res A * World.

#[global] Instance M_ret : MRet M := fun A a w => (Return a, w).

#[global] Instance M_bind : MBind M := fun A B f c w =>
  match c w with
  | (Return a, w') => f a w'
  | (Raise e, w') => (Raise e, w')
  | (OutOfFuel, w') => (OutOfFuel, w')
  end.

Definition raise {A} (e : Py.Exn) : M A := fun w => (Raise e, w).

Definition out_of_fuel {A} : M A := fun w => (OutOfFuel, w).

(** A pure computation that may raise. *)
Definition lift {A} (r : Py.Exn + A) : M A :=
  match r with
  | inl e => raise e
  | inr a => mret a
  end.

(** [try: body except StreamError: handler]. *)
Definition try_except_StreamError {A} (body handler : M A) : M A := fun w =>
  match body w with
  | (Raise Py.StreamError, w') => handler w'
  | r => r
  end.

Definition emit (e : Event) : M unit := fun w =>
  (Return tt,
   mkWorld (closed_at w) (closed_reads w) (http_at w) (http_gets w)
           (clock w) (buffer w) (self_mpd w) (trace w ++ [e])).

(** Read [self.closed]. *)
Definition read_closed : M bool := fun w =>
  (Return (closed_at w (closed_reads w)),
   mkWorld (closed_at w) (S (closed_reads w)) (http_at w) (http_gets w)
           (clock w) (buffer w) (self_mpd w) (trace w)).

(** [datetime.datetime.now(tz=utc)]. *)
Definition now : M Z := fun w => (Return (clock w), w).

(** Modelled from the spec: [sleep_until(t)] of dash_manifest suspends until
    the instant [t]. *)
Definition sleep_until (t : Z) : M unit := fun w =>
  (Return tt,
   mkWorld (closed_at w) (closed_reads w) (http_at w) (http_gets w)
           (Z.max (clock w) t) (buffer w) (self_mpd w) (trace w ++ [ESleepUntil t])).

(** Modelled from the spec: [session.http.get(url, timeout=...,
    exception=exn)] gives the response or raises [exn]. *)
Definition http_get (url : string) (timeout : option Q) (exn : Py.Exn) : M Response.t := fun w =>
  let w' := mkWorld (closed_at w) (closed_reads w) (http_at w) (S (http_gets w))
                    (clock w) (buffer w) (self_mpd w) (trace w ++ [EGet url timeout]) in
  match http_at w (http_gets w) with
  | Some res => (Return res, w')
  | None => (Raise exn, w')
  end.

(** Modelled from the spec: [session.http.xml(res, ignore_ns=True)] and the
    parse of the document by [MPD], which fail on malformed content. *)
Definition http_xml (res : Response.t) : M Doc.t :=
  lift (Response.manifest res).

(** Modelled from the spec: [self.reader.buffer.write(chunk)] appends the
    chunk to the output buffer. *)
Definition buffer_write (chunk : Chunk) : M unit := fun w =>
  (Return tt,
   mkWorld (closed_at w) (closed_reads w) (http_at w) (http_gets w)
           (clock w) (buffer w ++ chunk) (self_mpd w) (trace w)).

Definition get_mpd : M MPD.t := fun w => (Return (self_mpd w), w).

Definition set_mpd (mpd : MPD.t) : M unit := fun w =>
  (Return tt,
   mkWorld (closed_at w) (closed_reads w) (http_at w) (http_gets w)
           (clock w) (buffer w) mpd (trace w)).

(* ===================================================================== *)
(** ** class DASHStreamWriter *)
(* ===================================================================== *)

Module DASHStreamWriter.

(** [not retries]. *)
Definition not_retries (retries : option Z) : bool := negb (Py.truthyZ retries).

(** The body of the [try] in [fetch]: wait until the segment is available,
    then issue the request. *)
Definition download (timeout : option Q) (segment : Segment.t) : M (option Response.t) :=
  t ← now;
  (if t <? Segment.available_at segment
   then sleep_until (Segment.available_at segment)
   else mret tt);;
  res ← http_get (Segment.url segment) timeout Py.StreamError;
  mret (Some res).

(** [fetch(self, segment, retries=None)]; [fuel] bounds the depth of the
    recursion. The result is the response, or [None]. *)
Fixpoint fetch (fuel : nat) (timeout : option Q) (segment : Segment.t)
         (retries : option Z) : M (option Response.t) :=
  match fuel with
  | O => out_of_fuel
  | S fuel' =>
      closed ← read_closed;
      if closed || not_retries retries then mret None
      else
        try_except_StreamError
          (download timeout segment)
          (fetch fuel' timeout segment (Z.pred <$> retries))
  end.

(** The loop of [write] over the chunks still to come. *)
Fixpoint write_chunks (chunks : list Chunk) : M unit :=
  match chunks with
  | [] => mret tt
  | chunk :: rest =>
      closed ← read_closed;
      if negb closed
      then buffer_write chunk;; write_chunks rest
      else mret tt
  end.

(** [write(self, segment, res, chunk_size=8192)]. *)
Definition write (segment : Segment.t) (res : Response.t) (chunk_size : Z) : M unit :=
  write_chunks (Response.iter_content res chunk_size).

End DASHStreamWriter.

(* ===================================================================== *)
(** ** class DASHStreamWorker *)
(* ===================================================================== *)

Module DASHStreamWorker.

(** [periods[0]]. *)
Definition first_period (mpd : MPD.t) : M Period.t :=
  match MPD.periods mpd with
  | period :: _ => mret period
  | [] => raise Py.IndexError
  end.

(** The two nested [for] loops that look the representation up by id: every
    match overwrites [representation], so the last one stays. *)
Definition find_representation (period : Period.t) (representation_id : string)
  : option Representation.t :=
  foldl (fun representation aset =>
           foldl (fun representation rep =>
                    if String.eqb (Representation.id rep) representation_id
                    then Some rep else representation)
                 representation (AdaptationSet.representations aset))
        None (Period.adaptationSets period).

(** [max(minimumUpdatePeriod.total_seconds(), periods[0].duration.total_seconds()) or 5]. *)
Definition refresh_wait (mpd : MPD.t) (period : Period.t) : Q :=
  Py.or_ (Py.max (MPD.minimumUpdatePeriod mpd) (Period.duration period)) 5.

(** [with sleeper(duration): body]. Modelled from the spec: [sleeper] of
    dash_manifest is a timer around the body; it handles no exception. *)
Definition with_sleeper {A} (duration : Q) (body : M A) : M A :=
  emit (ESleeper duration);; body.

(** [for segment in ...: if self.closed: break; yield segment]. *)
Fixpoint yield_segments (segments : list Segment.t) : M unit :=
  match segments with
  | [] => mret tt
  | segment :: rest =>
      closed ← read_closed;
      if closed : bool then mret tt
      else emit (EYield segment);; yield_segments rest
  end.

(** [reload(self)]: [None] when closed, else whether the manifest changed. *)
Definition reload : M (option bool) :=
  closed ← read_closed;
  if closed : bool then mret None
  else
    emit EWaitFree;;
    mpd ← get_mpd;
    res ← http_get (MPD.url mpd) None Py.StreamError;
    doc ← http_xml res;
    let new_mpd := MPD.new doc (MPD.base_url mpd) (MPD.url mpd) (MPD.timelines mpd) in
    let changed := MPD.publishTime mpd <? MPD.publishTime new_mpd in
    (if changed then set_mpd new_mpd else mret tt);;
    mret (Some changed).

(** [not self.reload()]. *)
Definition not_ (r : option bool) : bool :=
  match r with
  | Some true => false
  | _ => true
  end.

(** The back-off factor after a reload that reported no change. *)
Definition grow (back_off_factor : Q) : Q :=
  Py.max (back_off_factor * (13 # 10)) 10.

(** How one pass through the body of the [while] loop ends: the loop goes
    on with new values of [init] and [back_off_factor], or the generator
    returns. *)
Inductive Flow :=
| Next (init : bool) (back_off_factor : Q)
| Stop.

(** The body of [while not self.closed]. *)
Definition cycle (representation_id : string) (init : bool) (back_off_factor : Q) : M Flow :=
  mpd ← get_mpd;
  period ← first_period mpd;
  let representation := find_representation period representation_id in
  with_sleeper (refresh_wait mpd period * back_off_factor)
    match representation with
    | Some representation =>
        yield_segments (Representation.segments representation init);;
        mpd ← get_mpd;
        if String.eqb (MPD.type_ mpd) "dynamic" then
          changed ← reload;
          mret (Next false (if not_ changed then grow back_off_factor else 1%Q))
        else mret Stop
    | None => mret (Next init back_off_factor)
    end.

(** The [while] loop, at most [fuel] passes. *)
Fixpoint loop (fuel : nat) (representation_id : string) (init : bool) (back_off_factor : Q) : M unit :=
  match fuel with
  | O => out_of_fuel
  | S fuel' =>
      closed ← read_closed;
      if closed : bool then mret tt
      else
        flow ← cycle representation_id init back_off_factor;
        match flow with
        | Next init' back_off_factor' => loop fuel' representation_id init' back_off_factor'
        | Stop => mret tt
        end
  end.

(** [iter_segments(self)], a generator taken to be driven to its end: the
    segments it yields are the [EYield] events, in order. *)
Definition iter_segments (fuel : nat) (representation_id : string) : M unit :=
  loop fuel representation_id true 1%Q.

End DASHStreamWorker.

(* ===================================================================== *)
(** ** class DASHStream *)
(* ===================================================================== *)

Module DASHStream.

Record t := mk {
  mpd : MPD.t;
  video_representation : option Representation.t;
  audio_representation : option Representation.t;
  period : Z
}.

(** [DASHStream(session, mpd, vid, aud)]. *)
Definition new (mpd : MPD.t) (vid aud : option Representation.t) : t :=
  mk mpd vid aud 0.

(** The body of [for rep in aset.representations]. *)
Definition classify (found : list Representation.t * list Representation.t)
           (rep : Representation.t) : list Representation.t * list Representation.t :=
  if Py.startswith (Representation.mimeType rep) "video" then (found.1 ++ [rep], found.2)
  else if Py.startswith (Representation.mimeType rep) "audio" then (found.1, found.2 ++ [rep])
  else found.

(** [for aset in mpd.periods[0].adaptationSets], from the lists so far. *)
Fixpoint search (url : string) (asets : list AdaptationSet.t)
         (found : list Representation.t * list Representation.t)
  : M (list Representation.t * list Representation.t) :=
  match asets with
  | [] => mret found
  | aset :: rest =>
      if AdaptationSet.contentProtection aset
      then raise (Py.PluginError (url +:+ " is protected by DRM"))
      else search url rest (foldl classify found (AdaptationSet.representations aset))
  end.

(** [if not l: l = [None]]. *)
Definition or_none (l : list Representation.t) : list (option Representation.t) :=
  match l with
  | [] => [None]
  | _ => Some <$> l
  end.

(** ["{:0.0f}{}".format(vid.height or vid.bandwidth, "p" if vid.height else "k")]. *)
Definition video_name (vid : Representation.t) : Py.Exn + string :=
  let h := Representation.height vid in
  match (if Py.truthyZ h then inject_Z <$> h else Representation.bandwidth vid) with
  | Some x => inr (Py.format_0f x +:+ (if Py.truthyZ h then "p" else "k"))
  | None => inl Py.TypeError
  end.

(** ["a{:0.0f}k".format(aud.bandwidth)]. *)
Definition audio_name (aud : option Representation.t) : Py.Exn + string :=
  match aud with
  | Some aud =>
      match Representation.bandwidth aud with
      | Some x => inr ("a" +:+ Py.format_0f x +:+ "k")
      | None => inl Py.TypeError
      end
  | None => inl Py.AttributeError
  end.

(** [stream_name.append(part)], where formatting [part] may raise. *)
Definition append (stream_name : list string) (part : Py.Exn + string)
  : Py.Exn + list string :=
  match part with
  | inl e => inl e
  | inr n => inr (stream_name ++ [n])
  end.

(** The list [stream_name] of one pair, joined by ["+"]. *)
Definition stream_name (audio : list (option Representation.t))
           (vid aud : option Representation.t) : Py.Exn + string :=
  match (match vid with
         | Some vid => append [] (video_name vid)
         | None => inr []
         end) with
  | inl e => inl e
  | inr parts =>
      match (if (1 <? length audio)%nat
             then append parts (audio_name aud)
             else inr parts) with
      | inl e => inl e
      | inr parts => inr (Py.join "+" parts)
      end
  end.

(** [for vid, aud in itertools.product(video, audio)], from the dict so far. *)
Fixpoint build (mpd : MPD.t) (audio : list (option Representation.t))
         (pairs : list (option Representation.t * option Representation.t))
         (ret : gmap string t) : M (gmap string t) :=
  match pairs with
  | [] => mret ret
  | (vid, aud) :: rest =>
      name ← lift (stream_name audio vid aud);
      build mpd audio rest (<[name := new mpd vid aud]> ret)
  end.

(** [parse_manifest] from the parsed manifest on: the search for video and
    audio representations, then one stream per pair. *)
Definition select (url : string) (mpd : MPD.t) : M (gmap string t) :=
  period ← DASHStreamWorker.first_period mpd;
  found ← search url (Period.adaptationSets period) ([], []);
  let video := or_none found.1 in
  let audio := or_none found.2 in
  build mpd audio (list_prod video audio) ∅.

Section ParseManifest.

(** [urlparse] and [urlunparse] of the standard library. *)
Variable urlparse : string -> list string.
Variable urlunparse : list string -> string.

(** [urlp[2], _ = urlp[2].rsplit("/", 1)]. *)
Definition strip_last_segment (urlp : list string) : Py.Exn + list string :=
  match urlp !! 2%nat with
  | Some path =>
      match Py.rsplit1 "/" path with
      | [dir; _] => inr (<[2%nat := dir]> urlp)
      | _ => inl Py.ValueError
      end
  | None => inl Py.IndexError
  end.

(** [parse_manifest(cls, session, url)]. *)
Definition parse_manifest (url : string) : M (gmap string t) :=
  res ← http_get url None (Py.PluginError "Unable to open URL");
  let url := Response.url res in
  urlp ← lift (strip_last_segment (urlparse url));
  doc ← http_xml res;
  let mpd := MPD.new doc (urlunparse urlp) url [] in
  select url mpd.

End ParseManifest.

(** What [open] returns: a reader, or the muxer over two readers. *)
Inductive Opened :=
| Reader (representation_id : string)
| Muxed (video audio : string).

(** [DASHStreamReader(self, id)] followed by [.open()]: the reader starts
    its worker and writer in the background. *)
Definition open_reader (representation_id : string) : M string :=
  emit (EOpenReader representation_id);; mret representation_id.

(** [open(self)]. *)
Definition open (self : t) : M (option Opened) :=
  video ← match video_representation self with
          | Some rep => r ← open_reader (Representation.id rep); mret (Some r)
          | None => mret None
          end;
  audio ← match audio_representation self with
          | Some rep => r ← open_reader (Representation.id rep); mret (Some r)
          | None => mret None
          end;
  match video, audio with
  | Some video, Some audio => emit (EMux video audio);; mret (Some (Muxed video audio))
  | Some video, None => mret (Some (Reader video))
  | None, Some audio => mret (Some (Reader audio))
  | None, None => mret None
  end.

(** [to_url(self)]. *)
Definition to_url (self : t) : string := MPD.url (mpd self).

End DASHStream.

(* ===================================================================== *)
(** ** Sample manifests and worlds *)
(* ===================================================================== *)

Module Sample.

Definition seg (url : string) (available_at : Z) : Segment.t :=
  Segment.mk url available_at.

(** A video representation with an initialization segment and two media
    segments. *)
Definition video_720 : Representation.t :=
  Representation.mk "v1" "video/mp4" (Some 720) (Some (2000 # 1))
    (fun init => (if init then [seg "v1/init.mp4" 0] else [])
                 ++ [seg "v1/1.m4s" 10; seg "v1/2.m4s" 20]).

(** The same height at another bandwidth. *)
Definition video_720_hi : Representation.t :=
  Representation.mk "v2" "video/mp4" (Some 720) (Some (4000 # 1))
    (fun _ => [seg "v2/1.m4s" 10]).

(** A video representation without height, and one whose height is 0. *)
Definition video_no_height : Representation.t :=
  Representation.mk "v3" "video/mp4" None (Some (1500 # 1)) (fun _ => []).

Definition video_height_0 : Representation.t :=
  Representation.mk "v4" "video/mp4" (Some 0) (Some (1500 # 1)) (fun _ => []).

Definition audio_128 : Representation.t :=
  Representation.mk "a1" "audio/mp4" None (Some (128 # 1))
    (fun _ => [seg "a1/1.m4s" 10]).

Definition audio_96 : Representation.t :=
  Representation.mk "a2" "audio/mp4" None (Some (96 # 1)) (fun _ => []).

Definition subtitles : Representation.t :=
  Representation.mk "t1" "text/vtt" None None (fun _ => []).

Definition aset (protected : bool) (reps : list Representation.t) : AdaptationSet.t :=
  AdaptationSet.mk protected reps.

Definition doc (type_ : string) (publishTime : Z) (asets : list AdaptationSet.t) : Doc.t :=
  Doc.mk type_ publishTime 0 [Period.mk 0 asets].

Definition mpd (type_ : string) (publishTime : Z) (asets : list AdaptationSet.t) : MPD.t :=
  MPD.new (doc type_ publishTime asets) "http://host/live" "http://host/live/m.mpd" [].

Definition tracks : list AdaptationSet.t :=
  [aset false [video_720]; aset false [audio_128]].

Definition response (d : Py.Exn + Doc.t) : Response.t :=
  Response.mk "http://host/live/m.mpd" (fun _ => []) d.

Definition never_closed : nat -> bool := fun _ => false.

Definition world (closed : nat -> bool) (http : nat -> option Response.t) (m : MPD.t) : World :=
  mkWorld closed 0 http 0 0 [] m [].

(** A live manifest whose reloads never bring anything new. *)
Definition stalled : World :=
  world never_closed (fun _ => Some (response (inr (doc "dynamic" 100 tracks))))
        (mpd "dynamic" 100 tracks).

(** A live manifest whose server has gone away. *)
Definition unreachable : World :=
  world never_closed (fun _ => None) (mpd "dynamic" 100 tracks).

(** A live manifest whose server answers with malformed content. *)
Definition malformed : World :=
  world never_closed (fun _ => Some (response (inl (Py.PluginError "Unable to parse XML"))))
        (mpd "dynamic" 100 tracks).

(** An on-demand manifest. *)
Definition on_demand : World :=
  world never_closed (fun _ => None) (mpd "static" 100 tracks).

(** A server that fails twice and answers from then on. *)
Definition flaky : World :=
  world never_closed
        (fun k => if (k <? 2)%nat then None
                  else Some (Response.mk "v1/1.m4s" (fun _ => [[Byte.x00]; [Byte.x01]])
                                         (inl Py.ValueError)))
        (mpd "dynamic" 100 tracks).

(** A flag that is set from its third read on. *)
Definition closed_from_third : nat -> bool := fun k => (2 <=? k)%nat.

(** [urlparse] of the sample url, and [urlunparse] of its six parts. *)
Definition urlparse (url : string) : list string :=
  ["http"; "host"; "/live/m.mpd"; ""; ""; ""].

Definition urlunparse (urlp : list string) : string :=
  match urlp with
  | [scheme; netloc; path; _; _; _] => scheme +:+ "://" +:+ netloc +:+ path
  | _ => ""
  end.

End Sample.

(* ===================================================================== *)
(** ** Vocabulary of the properties *)
(* ===================================================================== *)

(** A request to the HTTP session. *)
Definition is_get (e : Event) : bool :=
  match e with
  | EGet _ _ => true
  | _ => false
  end.

(** The number of requests among some events. *)
Definition requests (evs : list Event) : nat := length (filter is_get evs).

(** The events [fetch] can cause for a segment: the wait for its
    availability and the request of its url. *)
Definition fetch_event (timeout : option Q) (segment : Segment.t) (e : Event) : Prop :=
  e = ESleepUntil (Segment.available_at segment) \/
  e = EGet (Segment.url segment) timeout.

(** An event of a manifest reload: the wait for the buffer, or a request. *)
Definition is_reload (e : Event) : bool :=
  match e with
  | EWaitFree | EGet _ _ => true
  | _ => false
  end.

(** The start of the timer of a cycle. *)
Definition is_timer (e : Event) : bool :=
  match e with
  | ESleeper _ => true
  | _ => false
  end.

(** The snapshot [reload] builds from a fetched document: the document
    with the previous [base_url], [url] and [timelines]. *)
Definition reloaded (old : MPD.t) (doc : Doc.t) : MPD.t :=
  MPD.new doc (MPD.base_url old) (MPD.url old) (MPD.timelines old).

(** The world in which a cycle reaches the end of the segment sequence:
    the timer is started, then the segments are yielded. *)
Definition after_segments (duration : Q) (segments : list Segment.t) (w : World) : World :=
  (DASHStreamWorker.yield_segments segments (emit (ESleeper duration) w).2).2.

(** The two track lists of the selection. A representation is a video one
    when its media type starts with "video", an audio one when it does not
    and starts with "audio". *)
Definition is_video (rep : Representation.t) : bool :=
  Py.startswith (Representation.mimeType rep) "video".

Definition is_audio (rep : Representation.t) : bool :=
  negb (is_video rep) && Py.startswith (Representation.mimeType rep) "audio".

(** All representations of a period, in document order. *)
Definition representations_of (period : Period.t) : list Representation.t :=
  concat (AdaptationSet.representations <$> Period.adaptationSets period).

(** The video and audio choices of a period. *)
Definition video_choices (period : Period.t) : list (option Representation.t) :=
  DASHStream.or_none (List.filter is_video (representations_of period)).

Definition audio_choices (period : Period.t) : list (option Representation.t) :=
  DASHStream.or_none (List.filter is_audio (representations_of period)).

(** The video component of a name: nothing without a video track; the
    height and "p" when there is a height (other than 0); else the
    bandwidth and "k". *)
Definition video_part (vid : option Representation.t) (v : list string) : Prop :=
  match vid with
  | None => v = []
  | Some vid =>
      (exists h, Representation.height vid = Some h /\ h <> 0 /\
                 v = [Py.format_0f (inject_Z h) +:+ "p"]) \/
      ((Representation.height vid = None \/ Representation.height vid = Some 0) /\
       exists b, Representation.bandwidth vid = Some b /\
                 v = [Py.format_0f b +:+ "k"])
  end.

(** The audio component of a name: there is one exactly when there is more
    than one audio choice, and it is "a", the bandwidth and "k". *)
Definition audio_part (audio : list (option Representation.t))
           (aud : option Representation.t) (a : list string) : Prop :=
  ((length audio <= 1)%nat /\ a = []) \/
  ((1 < length audio)%nat /\
   exists r b, aud = Some r /\ Representation.bandwidth r = Some b /\
               a = ["a" +:+ Py.format_0f b +:+ "k"]).

(** A name formed as the selection forms it: the components joined by "+". *)
Definition named (audio : list (option Representation.t))
           (pair : option Representation.t * option Representation.t)
           (name : string) : Prop :=
  exists v a, name = Py.join "+" (v ++ a) /\
              video_part pair.1 v /\ audio_part audio pair.2 a.

(** [ret[name] = stream] for one pair and its name. *)
Definition store (mpd : MPD.t) (ret : gmap string DASHStream.t)
           (entry : (option Representation.t * option Representation.t) * string)
  : gmap string DASHStream.t :=
  <[entry.2 := DASHStream.new mpd entry.1.1 entry.1.2]> ret.

(** The stream of an entry, if the entry has the given name. *)
Definition pick (mpd : MPD.t) (name : string)
           (entry : (option Representation.t * option Representation.t) * string)
  : option DASHStream.t :=
  if decide (entry.2 = name) then Some (DASHStream.new mpd entry.1.1 entry.1.2) else None.

(** The representation has the given id. *)
Definition has_id (representation_id : string) (rep : Representation.t) : bool :=
  String.eqb (Representation.id rep) representation_id.

(** How a variant stands to a track of the period: the representation it
    has for the track is one of the period and of that type; it has none
    only when the period has no representation of that type. *)
Definition of_track (f : Representation.t -> bool) (period : Period.t)
           (choice : option Representation.t) : Prop :=
  match choice with
  | Some rep => f rep = true /\ In rep (representations_of period)
  | None => forall rep, In rep (representations_of period) -> f rep = false
  end.

(** What [open] gives was opened on representations of the period: a
    reader on a video or audio representation, or the muxer over a video
    and an audio one. *)
Definition opened_from (period : Period.t) (o : DASHStream.Opened) : Prop :=
  match o with
  | DASHStream.Reader rid =>
      exists rep, In rep (representations_of period) /\ Representation.id rep = rid /\
                  (is_video rep = true \/ is_audio rep = true)
  | DASHStream.Muxed video audio =>
      (exists rep, In rep (representations_of period) /\ Representation.id rep = video /\
                   is_video rep = true) /\
      (exists rep, In rep (representations_of period) /\ Representation.id rep = audio /\
                   is_audio rep = true)
  end.

(** The character occurs in the string. *)
Fixpoint occurs (c : ascii) (s : string) : bool :=
  match s with
  | EmptyString => false
  | String c' rest => Ascii.eqb c' c || occurs c rest
  end.

(** The write of one segment after another, as the writer does for the
    segments it is handed in turn. *)
Definition write_both (s1 : Segment.t) (r1 : Response.t)
           (s2 : Segment.t) (r2 : Response.t) (chunk_size : Z) : M unit :=
  DASHStreamWriter.write s1 r1 chunk_size;; DASHStreamWriter.write s2 r2 chunk_size.

(** What a snapshot keeps of the one it replaces: where it was fetched
    from, the base of its segment urls and the timelines; and it is not
    older. *)
Definition continues (old new : MPD.t) : Prop :=
  MPD.url new = MPD.url old /\ MPD.base_url new = MPD.base_url old /\
  MPD.timelines new = MPD.timelines old /\
  MPD.publishTime old <= MPD.publishTime new.

(* ===================================================================== *)
(** ** Properties *)
(* ===================================================================== *)

(** Unfold the monad's plumbing at the head of a computation. *)
Ltac run :=
  unfold mbind, M_bind, mret, M_ret, raise, lift, emit, read_closed, now,
    sleep_until, http_get, http_xml, buffer_write, get_mpd, set_mpd; cbn.

(** Reduce the fields of explicit worlds, and nothing else. *)
Ltac fields :=
  cbn [closed_at closed_reads http_at http_gets clock buffer self_mpd trace
       fst snd] in *.

(* --------------------------------------------------------------------- *)
(** *** DASHStreamWriter.write *)
(* --------------------------------------------------------------------- *)

Section Write.

Import DASHStreamWriter.

(** [write_chunks] touches only the read counter of the flag and the
    buffer. *)
Lemma write_chunks_frame (chunks : list Chunk) (w : World) :
  let w' := (write_chunks chunks w).2 in
  closed_at w' = closed_at w /\ http_at w' = http_at w /\
  http_gets w' = http_gets w /\ clock w' = clock w /\
  self_mpd w' = self_mpd w /\ trace w' = trace w.
Proof.
  revert w. induction chunks as [|chunk rest IH]; intros w; cbn.
  - tauto.
  - run. destruct (closed_at w (closed_reads w)); cbn; [tauto|].
    apply (IH (mkWorld _ _ _ _ _ _ _ _)).
Qed.

(** The chunks written are those that come before the first read of the
    flag that finds it set; the flag is read once per chunk up to there. *)
Lemma write_chunks_prefix (chunks : list Chunk) (w : World) :
  exists k : nat,
    (k <= length chunks)%nat /\
    (forall i, (i < k)%nat -> closed_at w (closed_reads w + i) = false) /\
    ((k < length chunks)%nat -> closed_at w (closed_reads w + k) = true) /\
    (write_chunks chunks w).1 = Return tt /\
    buffer (write_chunks chunks w).2 = buffer w ++ concat (take k chunks) /\
    closed_reads (write_chunks chunks w).2
    = (closed_reads w + (if (k <? length chunks)%nat then S k else k))%nat.
Proof.
  revert w. induction chunks as [|chunk rest IH]; intros w.
  - exists 0%nat. cbn. rewrite app_nil_r, Nat.add_0_r.
    repeat split; auto; intros; lia.
  - cbn [write_chunks]. run.
    destruct (closed_at w (closed_reads w)) eqn:Hc; cbn.
    + exists 0%nat. cbn. rewrite app_nil_r, Nat.add_0_r.
      repeat split; auto; intros; lia.
    + destruct (IH (mkWorld (closed_at w) (S (closed_reads w)) (http_at w)
                            (http_gets w) (clock w) (buffer w ++ chunk)
                            (self_mpd w) (trace w)))
        as (k & Hk & Hbefore & Hat & Hres & Hbuf & Hreads).
      fields. exists (S k). cbn [length]. repeat split.
      * lia.
      * intros [|i] Hi; [now rewrite Nat.add_0_r|].
        replace (closed_reads w + S i)%nat with (S (closed_reads w) + i)%nat by lia.
        apply Hbefore. lia.
      * intros Hlt.
        replace (closed_reads w + S k)%nat with (S (closed_reads w) + k)%nat by lia.
        apply Hat. lia.
      * exact Hres.
      * rewrite Hbuf. cbn. now rewrite <- app_assoc.
      * rewrite Hreads.
        destruct (Nat.ltb_spec k (length rest)),
                 (Nat.leb_spec (S k) (length rest)); lia.
Qed.

(** C9. [write] re-checks the closed flag before each chunk: the chunks
    written to the buffer are exactly those before the first check that
    finds the flag set (all of them when it never is); they stay in the
    buffer, nothing of the segment is written after that check, and no
    further check is made. The call returns normally either way. *)
Theorem write_stops_at_closed (segment : Segment.t) (res : Response.t)
        (chunk_size : Z) (w : World) :
  let chunks := Response.iter_content res chunk_size in
  let w' := (write segment res chunk_size w).2 in
  exists k : nat,
    (k <= length chunks)%nat /\
    (forall i, (i < k)%nat -> closed_at w (closed_reads w + i) = false) /\
    ((k < length chunks)%nat -> closed_at w (closed_reads w + k) = true) /\
    (write segment res chunk_size w).1 = Return tt /\
    buffer w' = buffer w ++ concat (take k chunks) /\
    closed_reads w'
    = (closed_reads w + (if (k <? length chunks)%nat then S k else k))%nat.
Proof.
  cbn. unfold write. apply write_chunks_prefix.
Qed.

End Write.

(* --------------------------------------------------------------------- *)
(** *** DASHStreamWriter.fetch *)
(* --------------------------------------------------------------------- *)

Section Fetch.

Import DASHStreamWriter.

Variable timeout : option Q.
Variable segment : Segment.t.

Lemma requests_app (l1 l2 : list Event) :
  requests (l1 ++ l2) = (requests l1 + requests l2)%nat.
Proof. unfold requests. now rewrite filter_app, length_app. Qed.

(** One attempt: exactly one request, for the segment's url; it raises
    [StreamError] when the transport fails. *)
Lemma download_attempt (w : World) :
  let r := download timeout segment w in
  r.1 = match http_at w (http_gets w) with
        | Some res => Return (Some res)
        | None => Raise Py.StreamError
        end /\
  closed_at r.2 = closed_at w /\ closed_reads r.2 = closed_reads w /\
  http_at r.2 = http_at w /\ http_gets r.2 = S (http_gets w) /\
  buffer r.2 = buffer w /\ self_mpd r.2 = self_mpd w /\
  exists evs, trace r.2 = trace w ++ evs /\
              Forall (fetch_event timeout segment) evs /\ requests evs = 1%nat.
Proof.
  unfold download. run.
  destruct (clock w <? Segment.available_at segment); cbn;
    destruct (http_at w (http_gets w)); cbn; repeat split; auto.
  all: try rewrite <- app_assoc.
  all: eexists; split; [reflexivity|]; split; [|reflexivity].
  all: repeat (constructor; [unfold fetch_event; auto|]); constructor.
Qed.

(** [fetch] gives up at once when the writer is closed, whatever the budget. *)
Lemma fetch_closed (fuel : nat) (retries : option Z) (w : World) :
  closed_at w (closed_reads w) = true ->
  fetch (S fuel) timeout segment retries w = (Return None, (read_closed w).2).
Proof. intros Hc. cbn [fetch]. run. now rewrite Hc. Qed.

(** [fetch] gives up at once without a budget: [None] or [0]. *)
Lemma fetch_no_budget (fuel : nat) (retries : option Z) (w : World) :
  not_retries retries = true ->
  fetch (S fuel) timeout segment retries w = (Return None, (read_closed w).2).
Proof.
  intros Hr. cbn [fetch]. run. rewrite Hr. now rewrite orb_true_r.
Qed.

(** With a budget and the writer open, [fetch] makes one attempt and, when
    the transport fails, calls itself with the budget less one. *)
Lemma fetch_attempt (fuel : nat) (n : Z) (w : World) :
  n <> 0 ->
  closed_at w (closed_reads w) = false ->
  fetch (S fuel) timeout segment (Some n) w
  = match http_at w (http_gets w) with
    | Some res => (Return (Some res), (download timeout segment (read_closed w).2).2)
    | None => fetch fuel timeout segment (Some (n - 1))
                    (download timeout segment (read_closed w).2).2
    end.
Proof.
  intros Hn Hc. cbn [fetch]. unfold mbind at 1, M_bind at 1.
  change (read_closed w) with
    (Return (closed_at w (closed_reads w)), (read_closed w).2) at 1.
  rewrite Hc. unfold not_retries, Py.truthyZ.
  destruct (Z.eqb_spec n 0) as [|_]; [contradiction|]. cbn [negb orb].
  unfold try_except_StreamError.
  pose proof (download_attempt (read_closed w).2) as (Hres & _).
  change (http_at (read_closed w).2 (http_gets (read_closed w).2))
    with (http_at w (http_gets w)) in Hres.
  destruct (download timeout segment (read_closed w).2) as [r w1].
  cbn [fst snd] in *. subst r.
  destruct (http_at w (http_gets w)); [reflexivity|].
  cbn [fmap option_fmap option_map]. now rewrite Z.sub_1_r.
Qed.

(** With budget [n >= 0] and enough fuel, [fetch] returns, after at most
    [n] requests, all of them for the segment. *)
Lemma fetch_bounded (fuel : nat) :
  forall (n : Z) (w : World),
    0 <= n -> (Z.to_nat n < fuel)%nat ->
    let r := fetch fuel timeout segment (Some n) w in
    (exists o, r.1 = Return o) /\
    closed_at r.2 = closed_at w /\ http_at r.2 = http_at w /\
    buffer r.2 = buffer w /\ self_mpd r.2 = self_mpd w /\
    exists evs, trace r.2 = trace w ++ evs /\
                Forall (fetch_event timeout segment) evs /\
                (requests evs <= Z.to_nat n)%nat /\
                http_gets r.2 = (http_gets w + requests evs)%nat.
Proof.
  induction fuel as [|fuel IH]; intros n w Hn Hfuel; [lia|].
  cbn zeta.
  destruct (closed_at w (closed_reads w)) eqn:Hc.
  { rewrite fetch_closed by assumption. cbn.
    repeat split; eauto. exists []. rewrite app_nil_r.
    repeat split; auto; cbn; lia. }
  destruct (Z.eq_dec n 0) as [->|Hn0].
  { rewrite fetch_no_budget by reflexivity. cbn.
    repeat split; eauto. exists []. rewrite app_nil_r.
    repeat split; auto; cbn; lia. }
  rewrite fetch_attempt by assumption.
  pose proof (download_attempt (read_closed w).2)
    as (_ & Hca & _ & Hha & Hg & Hb & Hm & evs & Htr & Hev & Hreq).
  set (w1 := (download timeout segment (read_closed w).2).2) in *.
  cbn [read_closed snd closed_at http_at http_gets buffer self_mpd trace] in *.
  destruct (http_at w (http_gets w)).
  - cbn [fst snd]. repeat split; eauto.
    exists evs. repeat split; auto; lia.
  - destruct (IH (n - 1) w1 ltac:(lia) ltac:(lia))
      as (Ho & Hca' & Hha' & Hb' & Hm' & evs' & Htr' & Hev' & Hreq' & Hg').
    repeat split; try congruence.
    exists (evs ++ evs'). rewrite Htr', Htr, app_assoc, requests_app.
    repeat split; auto.
    + now apply Forall_app.
    + lia.
    + lia.
Qed.

(** C8. A fetch with retry budget 0, or with the writer closed, returns
    nothing and issues no request. Otherwise it makes one attempt for the
    segment; when the transport fails it retries the same segment with the
    budget less one. For a budget [n >= 0] it therefore returns after at
    most [n] requests, all for that segment. *)
Theorem fetch_retry_budget (fuel : nat) (n : Z) (w : World) :
  0 <= n -> (Z.to_nat n < fuel)%nat ->
  let r := fetch fuel timeout segment (Some n) w in
  (exists o, r.1 = Return o) /\
  (exists evs, trace r.2 = trace w ++ evs /\
               Forall (fetch_event timeout segment) evs /\
               (requests evs <= Z.to_nat n)%nat /\
               http_gets r.2 = (http_gets w + requests evs)%nat) /\
  (n = 0 \/ closed_at w (closed_reads w) = true ->
   r.1 = Return None /\ trace r.2 = trace w /\ http_gets r.2 = http_gets w) /\
  (n <> 0 -> closed_at w (closed_reads w) = false ->
   match http_at w (http_gets w) with
   | Some res => r.1 = Return (Some res)
   | None => r = fetch (Nat.pred fuel) timeout segment (Some (n - 1))
                       (download timeout segment (read_closed w).2).2
   end).
Proof.
  intros Hn Hfuel.
  pose proof (fetch_bounded fuel n w Hn Hfuel) as (Ho & _ & _ & _ & _ & Hev).
  cbn zeta. split; [exact Ho|]. split; [exact Hev|].
  destruct fuel as [|fuel]; [lia|]. split.
  - intros [->|Hc].
    + rewrite fetch_no_budget by reflexivity. now cbn.
    + rewrite fetch_closed by assumption. now cbn.
  - intros Hn0 Hc. rewrite fetch_attempt by assumption.
    now destruct (http_at w (http_gets w)).
Qed.

End Fetch.

(** A budget of three against a server that never answers: three requests
    for the segment, then nothing. *)
Lemma fetch_retry_budget_witness :
  0 <= 3 /\ (Z.to_nat 3 < 4)%nat /\
  let r := DASHStreamWriter.fetch 4 None (Sample.seg "v1/1.m4s" 10) (Some 3)
             Sample.unreachable in
  r.1 = Return None /\ http_gets r.2 = 3%nat /\
  exists evs, trace r.2 = trace Sample.unreachable ++ evs /\
              (requests evs <= Z.to_nat 3)%nat.
Proof.
  split; [lia|]. split; [cbn; lia|].
  split; [reflexivity|]. split; [reflexivity|].
  destruct (fetch_retry_budget None (Sample.seg "v1/1.m4s" 10) 4 3
              Sample.unreachable ltac:(lia) ltac:(cbn; lia))
    as (_ & (evs & Htr & _ & Hreq & _) & _).
  exists evs. split; [exact Htr | exact Hreq].
Defined.

(* --------------------------------------------------------------------- *)
(** *** DASHStreamWorker.reload *)
(* --------------------------------------------------------------------- *)

Section Reload.

Import DASHStreamWorker.

(** A closed worker does not reload: no request, the snapshot stays. *)
Lemma reload_closed (w : World) :
  closed_at w (closed_reads w) = true ->
  reload w = (Return None, (read_closed w).2).
Proof. intros Hc. unfold reload. run. now rewrite Hc. Qed.

(** [reload] never touches the flag's or the session's behaviour, the
    buffer or the clock, and adds one read of the flag. *)
Lemma reload_frame (w : World) :
  let r := reload w in
  closed_at r.2 = closed_at w /\ http_at r.2 = http_at w /\
  closed_reads r.2 = S (closed_reads w) /\
  buffer r.2 = buffer w /\ clock r.2 = clock w.
Proof.
  unfold reload. run.
  destruct (closed_at w (closed_reads w)); cbn; [tauto|].
  destruct (http_at w (http_gets w)) as [res|]; cbn; [|tauto].
  destruct (Response.manifest res) as [e|doc]; cbn; [tauto|].
  destruct (MPD.publishTime (self_mpd w) <? Doc.publishTime doc); cbn; tauto.
Qed.

(** A reload that fails raises, and leaves the snapshot as it was. *)
Lemma reload_failure (w : World) (e : Py.Exn) :
  closed_at w (closed_reads w) = false ->
  match http_at w (http_gets w) with
  | None => e = Py.StreamError
  | Some res => Response.manifest res = inl e
  end ->
  (reload w).1 = Raise e /\ self_mpd (reload w).2 = self_mpd w.
Proof.
  intros Hc Hfail. unfold reload. run. rewrite Hc. cbn.
  destruct (http_at w (http_gets w)) as [res|]; cbn.
  - rewrite Hfail. now cbn.
  - now subst e.
Qed.

(** C5. A reload replaces the current snapshot by the fetched one exactly
    when the new publish timestamp is strictly greater than the old one,
    and then returns "changed" (true); with an equal or older timestamp it
    returns false and keeps the previous snapshot. When the fetch or the
    parse fails the exception is raised and the previous snapshot stays;
    a closed worker fetches nothing and keeps it too. *)
Theorem reload_replaces_iff_newer (w : World) :
  let r := reload w in
  let old := self_mpd w in
  (closed_at w (closed_reads w) = true ->
   r.1 = Return None /\ self_mpd r.2 = old /\ http_gets r.2 = http_gets w) /\
  (closed_at w (closed_reads w) = false ->
   match http_at w (http_gets w) with
   | None => r.1 = Raise Py.StreamError /\ self_mpd r.2 = old
   | Some res =>
       match Response.manifest res with
       | inl e => r.1 = Raise e /\ self_mpd r.2 = old
       | inr doc =>
           let new := reloaded old doc in
           (MPD.publishTime new > MPD.publishTime old ->
            r.1 = Return (Some true) /\ self_mpd r.2 = new) /\
           (MPD.publishTime new <= MPD.publishTime old ->
            r.1 = Return (Some false) /\ self_mpd r.2 = old)
       end
   end).
Proof.
  cbn zeta. split; intros Hc.
  - rewrite reload_closed by assumption. now cbn.
  - unfold reload. run. rewrite Hc. cbn.
    destruct (http_at w (http_gets w)) as [res|]; cbn; [|tauto].
    destruct (Response.manifest res) as [e|doc]; cbn; [tauto|].
    destruct (Z.ltb_spec (MPD.publishTime (self_mpd w)) (Doc.publishTime doc));
      cbn; split; intros; try lia; tauto.
Qed.

End Reload.

(** A reload that fetches a newer manifest, and one that fetches the same
    manifest again. *)
Lemma reload_replaces_iff_newer_witness :
  let newer := Sample.world Sample.never_closed
                 (fun _ => Some (Sample.response (inr (Sample.doc "dynamic" 101 []))))
                 (Sample.mpd "dynamic" 100 Sample.tracks) in
  ((DASHStreamWorker.reload newer).1 = Return (Some true) /\
   MPD.publishTime (self_mpd (DASHStreamWorker.reload newer).2) = 101) /\
  ((DASHStreamWorker.reload Sample.stalled).1 = Return (Some false) /\
   self_mpd (DASHStreamWorker.reload Sample.stalled).2 = self_mpd Sample.stalled).
Proof.
  cbn zeta. split.
  - destruct (reload_replaces_iff_newer
                (Sample.world Sample.never_closed
                   (fun _ => Some (Sample.response (inr (Sample.doc "dynamic" 101 []))))
                   (Sample.mpd "dynamic" 100 Sample.tracks))) as [_ H].
    destruct (H eq_refl) as [[-> ->] _]; [reflexivity|]. split; reflexivity.
  - destruct (reload_replaces_iff_newer Sample.stalled) as [_ H].
    destruct (H eq_refl) as [_ H']. apply H'. cbn. lia.
Defined.

(* --------------------------------------------------------------------- *)
(** *** DASHStreamWorker.iter_segments *)
(* --------------------------------------------------------------------- *)

Section Scheduler.

Import DASHStreamWorker.

(** The inner loop yields the segments that come before the first read of
    the flag that finds it set, and changes nothing else. *)
Lemma yield_segments_prefix (segments : list Segment.t) (w : World) :
  let r := yield_segments segments w in
  r.1 = Return tt /\
  closed_at r.2 = closed_at w /\ http_at r.2 = http_at w /\
  http_gets r.2 = http_gets w /\ clock r.2 = clock w /\
  buffer r.2 = buffer w /\ self_mpd r.2 = self_mpd w /\
  exists k : nat,
    (k <= length segments)%nat /\
    (forall i, (i < k)%nat -> closed_at w (closed_reads w + i) = false) /\
    ((k < length segments)%nat -> closed_at w (closed_reads w + k) = true) /\
    trace r.2 = trace w ++ (EYield <$> take k segments).
Proof.
  revert w. induction segments as [|segment rest IH]; intros w; cbn zeta.
  - cbn. repeat split; auto. exists 0%nat. cbn. rewrite app_nil_r.
    repeat split; auto; intros; lia.
  - cbn [yield_segments]. run.
    destruct (closed_at w (closed_reads w)) eqn:Hc; cbn.
    + repeat split; auto. exists 0%nat. cbn. rewrite app_nil_r, Nat.add_0_r.
      repeat split; auto; intros; lia.
    + destruct (IH (mkWorld (closed_at w) (S (closed_reads w)) (http_at w)
                            (http_gets w) (clock w) (buffer w) (self_mpd w)
                            (trace w ++ [EYield segment])))
        as (Hres & Hca & Hha & Hg & Hcl & Hb & Hm & k & Hk & Hbefore & Hat & Htr).
      fields. repeat split; auto. exists (S k). cbn [length]. repeat split.
      * lia.
      * intros [|i] Hi; [now rewrite Nat.add_0_r|].
        replace (closed_reads w + S i)%nat with (S (closed_reads w) + i)%nat by lia.
        apply Hbefore. lia.
      * intros Hlt.
        replace (closed_reads w + S k)%nat with (S (closed_reads w) + k)%nat by lia.
        apply Hat. lia.
      * rewrite Htr. cbn. now rewrite <- app_assoc.
Qed.

(** When the flag is never set, every segment is yielded. *)
Lemma yield_segments_all (segments : list Segment.t) (w : World) :
  (forall i, closed_at w i = false) ->
  trace (yield_segments segments w).2 = trace w ++ (EYield <$> segments).
Proof.
  intros Hnever.
  destruct (yield_segments_prefix segments w)
    as (_ & _ & _ & _ & _ & _ & _ & k & Hk & _ & Hat & Htr).
  rewrite Htr. destruct (Nat.lt_ge_cases k (length segments)) as [Hlt|Hge].
  - specialize (Hat Hlt). rewrite Hnever in Hat. discriminate.
  - now rewrite firstn_all2.
Qed.

Lemma after_segments_frame (duration : Q) (segments : list Segment.t) (w : World) :
  let w1 := after_segments duration segments w in
  closed_at w1 = closed_at w /\ http_at w1 = http_at w /\
  http_gets w1 = http_gets w /\ self_mpd w1 = self_mpd w /\
  exists k : nat,
    (k <= length segments)%nat /\
    trace w1 = trace w ++ ESleeper duration :: (EYield <$> take k segments).
Proof.
  unfold after_segments.
  destruct (yield_segments_prefix segments (emit (ESleeper duration) w).2)
    as (_ & Hca & Hha & Hg & _ & _ & Hm & k & Hk & _ & _ & Htr).
  cbn zeta. rewrite Hca, Hha, Hg, Hm, Htr. cbn. repeat split; auto.
  exists k. split; [exact Hk|]. now rewrite <- app_assoc.
Qed.

(** A cycle whose representation is found, up to the test of the type:
    for a manifest that is not dynamic the generator returns; for a dynamic
    one the manifest is reloaded and the back-off factor updated. *)
Lemma cycle_found (representation_id : string) (init : bool) (back_off_factor : Q)
      (w : World) (period : Period.t) (rest : list Period.t) (rep : Representation.t) :
  MPD.periods (self_mpd w) = period :: rest ->
  find_representation period representation_id = Some rep ->
  let w1 := after_segments (refresh_wait (self_mpd w) period * back_off_factor)
              (Representation.segments rep init) w in
  cycle representation_id init back_off_factor w
  = if String.eqb (MPD.type_ (self_mpd w)) "dynamic"
    then match reload w1 with
         | (Return changed, w2) =>
             (Return (Next false (if not_ changed then grow back_off_factor else 1%Q)), w2)
         | (Raise e, w2) => (Raise e, w2)
         | (OutOfFuel, w2) => (OutOfFuel, w2)
         end
    else (Return Stop, w1).
Proof.
  intros Hperiods Hfind. cbn zeta. unfold cycle, first_period, with_sleeper.
  unfold mbind at 1, M_bind at 1, get_mpd at 1. cbn [fst snd].
  rewrite Hperiods. unfold mbind at 1, M_bind at 1, mret at 1, M_ret at 1.
  rewrite Hfind. unfold mbind at 1, M_bind at 1.
  change (emit (ESleeper (refresh_wait (self_mpd w) period * back_off_factor)) w)
    with (Return tt, (emit (ESleeper (refresh_wait (self_mpd w) period * back_off_factor)) w).2).
  cbn iota. unfold mbind at 1, M_bind at 1.
  pose proof (yield_segments_prefix (Representation.segments rep init)
                (emit (ESleeper (refresh_wait (self_mpd w) period * back_off_factor)) w).2)
    as (Hres & _ & _ & _ & _ & _ & Hm & _).
  unfold after_segments.
  destruct (yield_segments (Representation.segments rep init)
              (emit (ESleeper (refresh_wait (self_mpd w) period * back_off_factor)) w).2)
    as [r w1]. cbn [fst snd] in *. subst r.
  unfold mbind at 1, M_bind at 1, get_mpd at 1. cbn [fst snd]. rewrite Hm.
  cbn [emit snd self_mpd].
  destruct (String.eqb (MPD.type_ (self_mpd w)) "dynamic"); [|reflexivity].
  unfold mbind, M_bind. destruct (reload w1) as [[changed|e|] w2]; reflexivity.
Qed.

(** A cycle whose representation is missing does nothing but start the
    timer: the loop goes on as it was. *)
Lemma cycle_missing (representation_id : string) (init : bool) (back_off_factor : Q)
      (w : World) (period : Period.t) (rest : list Period.t) :
  MPD.periods (self_mpd w) = period :: rest ->
  find_representation period representation_id = None ->
  cycle representation_id init back_off_factor w
  = (Return (Next init back_off_factor),
     (emit (ESleeper (refresh_wait (self_mpd w) period * back_off_factor)) w).2).
Proof.
  intros Hperiods Hfind. unfold cycle, first_period, with_sleeper.
  unfold mbind at 1, M_bind at 1, get_mpd at 1. cbn [fst snd].
  rewrite Hperiods. unfold mbind at 1, M_bind at 1, mret at 1, M_ret at 1.
  rewrite Hfind. reflexivity.
Qed.

(** A cycle on a manifest without periods raises [IndexError]. *)
Lemma cycle_no_period (representation_id : string) (init : bool) (back_off_factor : Q)
      (w : World) :
  MPD.periods (self_mpd w) = [] ->
  cycle representation_id init back_off_factor w = (Raise Py.IndexError, w).
Proof.
  intros Hperiods. unfold cycle, first_period.
  unfold mbind at 1, M_bind at 1, get_mpd at 1. cbn [fst snd].
  rewrite Hperiods. reflexivity.
Qed.

(** One pass of the [while] loop. *)
Lemma loop_step (fuel : nat) (representation_id : string) (init : bool)
      (back_off_factor : Q) (w : World) :
  loop (S fuel) representation_id init back_off_factor w
  = if closed_at w (closed_reads w) then (Return tt, (read_closed w).2)
    else match cycle representation_id init back_off_factor (read_closed w).2 with
         | (Return (Next init' back_off_factor'), w') =>
             loop fuel representation_id init' back_off_factor' w'
         | (Return Stop, w') => (Return tt, w')
         | (Raise e, w') => (Raise e, w')
         | (OutOfFuel, w') => (OutOfFuel, w')
         end.
Proof.
  cbn [loop]. unfold mbind at 1, M_bind at 1.
  change (read_closed w) with
    (Return (closed_at w (closed_reads w)), (read_closed w).2) at 1.
  cbn iota. destruct (closed_at w (closed_reads w)); [reflexivity|].
  unfold mbind, M_bind.
  destruct (cycle representation_id init back_off_factor (read_closed w).2)
    as [[[init' back_off_factor'|]|e|] w']; reflexivity.
Qed.

End Scheduler.

Section Static.

Import DASHStreamWorker.

(** No pass over a manifest that is not dynamic reloads anything: the
    snapshot stays, no request is made, the buffer is not waited for. *)
Lemma loop_static_no_reload (fuel : nat) :
  forall (representation_id : string) (init : bool) (back_off_factor : Q) (w : World),
    MPD.type_ (self_mpd w) <> "dynamic" ->
    let r := loop fuel representation_id init back_off_factor w in
    self_mpd r.2 = self_mpd w /\ http_gets r.2 = http_gets w /\
    exists evs, trace r.2 = trace w ++ evs /\ Forall (fun e => is_reload e = false) evs.
Proof.
  induction fuel as [|fuel IH]; intros rid init bof w Hstatic; cbn zeta.
  { cbn. repeat split; auto. exists []. now rewrite app_nil_r. }
  rewrite loop_step. destruct (closed_at w (closed_reads w)).
  { cbn. repeat split; auto. exists []. now rewrite app_nil_r. }
  set (w0 := (read_closed w).2).
  assert (self_mpd w0 = self_mpd w /\ http_gets w0 = http_gets w /\ trace w0 = trace w)
    as (Hm0 & Hg0 & Ht0) by (subst w0; cbn; auto).
  destruct (MPD.periods (self_mpd w0)) as [|period rest] eqn:Hperiods.
  { rewrite cycle_no_period by assumption. cbn [fst snd].
    repeat split; auto. exists []. now rewrite app_nil_r. }
  destruct (find_representation period rid) as [rep|] eqn:Hfind.
  - rewrite (cycle_found rid init bof w0 period rest rep Hperiods Hfind).
    rewrite Hm0. apply String.eqb_neq in Hstatic. rewrite Hstatic. cbn [fst snd].
    destruct (after_segments_frame (refresh_wait (self_mpd w) period * bof)
                (Representation.segments rep init) w0)
      as (_ & _ & Hg & Hm & k & _ & Htr).
    rewrite Hm, Hg, Htr, Ht0. repeat split; auto.
    eexists. split; [reflexivity|]. constructor; [reflexivity|].
    apply Forall_fmap, Forall_forall. reflexivity.
  - rewrite (cycle_missing rid init bof w0 period rest Hperiods Hfind).
    set (w1 := (emit (ESleeper (refresh_wait (self_mpd w0) period * bof)) w0).2).
    assert (self_mpd w1 = self_mpd w /\ http_gets w1 = http_gets w) as (Hm1 & Hg1)
      by (subst w1; cbn; auto).
    destruct (IH rid init bof w1) as (Hm & Hg & evs & Htr & Hev);
      [now rewrite Hm1|].
    rewrite Hm, Hg, Htr. repeat split; auto.
    exists (ESleeper (refresh_wait (self_mpd w0) period * bof) :: evs).
    subst w1. cbn [emit snd trace]. rewrite Ht0, <- app_assoc.
    split; [reflexivity|]. now constructor.
Qed.

(** C4. For a static manifest (any type but "dynamic") whose bound
    representation is found, the scheduler ends normally within its first
    pass, after the segment sequence (all of it when the worker is never
    closed), and it never attempts a reload: no request, no wait for the
    buffer, the snapshot untouched. *)
Theorem static_manifest_stops_without_reload (fuel : nat) (representation_id : string)
        (w : World) (period : Period.t) (rest : list Period.t) (rep : Representation.t) :
  MPD.type_ (self_mpd w) <> "dynamic" ->
  MPD.periods (self_mpd w) = period :: rest ->
  find_representation period representation_id = Some rep ->
  let r := iter_segments (S fuel) representation_id w in
  r.1 = Return tt /\
  self_mpd r.2 = self_mpd w /\ http_gets r.2 = http_gets w /\
  (exists evs, trace r.2 = trace w ++ evs /\ Forall (fun e => is_reload e = false) evs) /\
  ((forall i, closed_at w i = false) ->
   trace r.2 = trace w ++ ESleeper (refresh_wait (self_mpd w) period * 1)
                       :: (EYield <$> Representation.segments rep true)).
Proof.
  intros Hstatic Hperiods Hfind. cbn zeta. unfold iter_segments.
  pose proof (loop_static_no_reload (S fuel) representation_id true 1%Q w Hstatic)
    as (Hm & Hg & Hev).
  cbn zeta in Hm, Hg, Hev.
  split; [|split; [exact Hm|split; [exact Hg|split; [exact Hev|]]]].
  - rewrite loop_step. destruct (closed_at w (closed_reads w)); [reflexivity|].
    rewrite (cycle_found representation_id true 1%Q (read_closed w).2 period rest rep
               Hperiods Hfind).
    cbn [read_closed snd self_mpd]. apply String.eqb_neq in Hstatic.
    now rewrite Hstatic.
  - intros Hnever. rewrite loop_step, Hnever.
    rewrite (cycle_found representation_id true 1%Q (read_closed w).2 period rest rep
               Hperiods Hfind).
    cbn [read_closed snd self_mpd]. apply String.eqb_neq in Hstatic.
    rewrite Hstatic. cbn [snd]. unfold after_segments.
    rewrite yield_segments_all by (intros i; apply Hnever).
    cbn. now rewrite <- app_assoc.
Qed.

End Static.

(** The on-demand sample: the three segments of the video, then the end. *)
Lemma static_manifest_stops_without_reload_witness :
  let r := DASHStreamWorker.iter_segments 1 "v1" Sample.on_demand in
  r.1 = Return tt /\ http_gets r.2 = 0%nat /\
  trace r.2 = [ESleeper (5 * 1);
               EYield (Sample.seg "v1/init.mp4" 0);
               EYield (Sample.seg "v1/1.m4s" 10);
               EYield (Sample.seg "v1/2.m4s" 20)].
Proof.
  destruct (static_manifest_stops_without_reload 0 "v1" Sample.on_demand
              (Period.mk 0 Sample.tracks) [] Sample.video_720
              ltac:(discriminate) eq_refl eq_refl)
    as (Hres & _ & Hg & _ & Htr).
  split; [exact Hres|]. split; [exact Hg|].
  exact (Htr (fun _ => eq_refl)).
Defined.

Section Missing.

Import DASHStreamWorker.

(** While the representation is missing and the flag is not set, the loop
    keeps turning: it never returns and never reloads. *)
Lemma loop_missing_spins (fuel : nat) :
  forall (representation_id : string) (init : bool) (back_off_factor : Q)
         (w : World) (period : Period.t) (rest : list Period.t),
    MPD.periods (self_mpd w) = period :: rest ->
    find_representation period representation_id = None ->
    (forall i, closed_at w i = false) ->
    let r := loop fuel representation_id init back_off_factor w in
    r.1 = OutOfFuel /\ self_mpd r.2 = self_mpd w /\ http_gets r.2 = http_gets w /\
    trace r.2
    = trace w ++ replicate fuel (ESleeper (refresh_wait (self_mpd w) period * back_off_factor)).
Proof.
  induction fuel as [|fuel IH]; intros rid init bof w period rest Hperiods Hfind Hnever;
    cbn zeta.
  { cbn. now rewrite app_nil_r. }
  rewrite loop_step, Hnever.
  rewrite (cycle_missing rid init bof (read_closed w).2 period rest Hperiods Hfind).
  set (w1 := (emit _ _).2).
  destruct (IH rid init bof w1 period rest Hperiods Hfind Hnever)
    as (Hres & Hm & Hg & Htr).
  rewrite Hres, Hm, Hg, Htr. subst w1. cbn. now rewrite <- app_assoc.
Qed.

(** With the representation missing the loop returns exactly when one of
    its checks of the flag, one per pass, finds it set. *)
Lemma loop_missing_returns_iff (fuel : nat) :
  forall (representation_id : string) (init : bool) (back_off_factor : Q)
         (w : World) (period : Period.t) (rest : list Period.t),
    MPD.periods (self_mpd w) = period :: rest ->
    find_representation period representation_id = None ->
    (loop fuel representation_id init back_off_factor w).1 = Return tt <->
    exists k, (k < fuel)%nat /\ closed_at w (closed_reads w + k) = true.
Proof.
  induction fuel as [|fuel IH]; intros rid init bof w period rest Hperiods Hfind.
  { cbn. split; [discriminate|]. intros (k & Hk & _). lia. }
  rewrite loop_step. destruct (closed_at w (closed_reads w)) eqn:Hc.
  { split; [|reflexivity]. intros _. exists 0%nat. rewrite Nat.add_0_r.
    split; [lia | exact Hc]. }
  rewrite (cycle_missing rid init bof (read_closed w).2 period rest Hperiods Hfind).
  set (w1 := (emit _ _).2).
  rewrite (IH rid init bof w1 period rest Hperiods Hfind).
  subst w1. cbn [emit read_closed snd closed_at closed_reads].
  split; intros (k & Hk & Hset).
  - exists (S k). split; [lia|].
    now replace (closed_reads w + S k)%nat with (S (closed_reads w) + k)%nat by lia.
  - destruct k as [|k]; [rewrite Nat.add_0_r in Hset; congruence|].
    exists k. split; [lia|].
    now replace (S (closed_reads w) + k)%nat with (closed_reads w + S k)%nat by lia.
Qed.

(** C2, as the code has it. In a cycle in which the bound representation
    id is absent from the first period, nothing is yielded and nothing is
    raised, but neither is the manifest reloaded nor the scheduler stopped,
    whatever the manifest type: the cycle only starts the timer and the
    loop goes on with the same snapshot, [init] and back-off factor. As
    long as the worker is not closed the loop keeps turning; it returns
    exactly when one of its checks of the flag finds it set. *)
Theorem missing_representation_cycle (representation_id : string) (init : bool)
        (back_off_factor : Q) (w : World) (period : Period.t) (rest : list Period.t) :
  MPD.periods (self_mpd w) = period :: rest ->
  find_representation period representation_id = None ->
  let r := cycle representation_id init back_off_factor w in
  r.1 = Return (Next init back_off_factor) /\
  self_mpd r.2 = self_mpd w /\ http_gets r.2 = http_gets w /\
  closed_reads r.2 = closed_reads w /\
  trace r.2 = trace w ++ [ESleeper (refresh_wait (self_mpd w) period * back_off_factor)] /\
  (forall fuel,
      (forall i, closed_at w i = false) ->
      (loop fuel representation_id init back_off_factor w).1 = OutOfFuel /\
      http_gets (loop fuel representation_id init back_off_factor w).2 = http_gets w) /\
  (forall fuel,
      (loop fuel representation_id init back_off_factor w).1 = Return tt <->
      exists k, (k < fuel)%nat /\ closed_at w (closed_reads w + k) = true).
Proof.
  intros Hperiods Hfind. cbn zeta.
  rewrite (cycle_missing representation_id init back_off_factor w period rest
             Hperiods Hfind).
  cbn [emit fst snd self_mpd http_gets closed_reads trace]. repeat split; auto.
  - now apply (loop_missing_spins fuel representation_id init back_off_factor
                 w period rest).
  - now apply (loop_missing_spins fuel representation_id init back_off_factor
                 w period rest).
  - now apply loop_missing_returns_iff with period rest.
  - now apply loop_missing_returns_iff with period rest.
Qed.

End Missing.

(** An id that the on-demand sample does not have. *)
Lemma missing_representation_cycle_witness :
  let r := DASHStreamWorker.cycle "zz" true 1 Sample.on_demand in
  r.1 = Return (DASHStreamWorker.Next true 1) /\
  trace r.2 = [ESleeper (5 * 1)] /\
  (DASHStreamWorker.loop 7 "zz" true 1 Sample.on_demand).1 = OutOfFuel.
Proof.
  destruct (missing_representation_cycle "zz" true 1 Sample.on_demand
              (Period.mk 0 Sample.tracks) [] eq_refl eq_refl)
    as (Hres & _ & _ & _ & Htr & Hspin & _).
  split; [exact Hres|]. split; [exact Htr|].
  exact (proj1 (Hspin 7%nat (fun _ => eq_refl))).
Defined.

(** C2 as stated fails. With the representation missing, a static
    manifest does not stop the scheduler: the cycle asks for another pass,
    and the generator is still running after seven of them. A dynamic
    manifest is not reloaded: after seven passes no request has been made
    and the timer is all that happened. *)
Lemma missing_representation_counterexample :
  DASHStreamWorker.find_representation (Period.mk 0 Sample.tracks) "zz" = None /\
  MPD.type_ (self_mpd Sample.on_demand) = "static" /\
  (DASHStreamWorker.cycle "zz" true 1 Sample.on_demand).1 <> Return DASHStreamWorker.Stop /\
  (DASHStreamWorker.iter_segments 7 "zz" Sample.on_demand).1 <> Return tt /\
  MPD.type_ (self_mpd Sample.stalled) = "dynamic" /\
  http_gets (DASHStreamWorker.iter_segments 7 "zz" Sample.stalled).2 = 0%nat /\
  trace (DASHStreamWorker.iter_segments 7 "zz" Sample.stalled).2
  = replicate 7 (ESleeper (5 * 1)).
Proof.
  repeat split; try reflexivity; vm_compute; discriminate.
Qed.

Section ReloadFailure.

Import DASHStreamWorker.

(** C3, as the code has it. When the reload of a cycle fails, by the
    transport ([StreamError]) or on malformed content (the parser's
    exception), the current snapshot is not replaced, but the failure is
    not treated as "unchanged": [iter_segments] has no handler around
    [reload], so the exception leaves the cycle and the scheduling loop,
    and no back-off factor is computed. *)
Theorem reload_failure_propagates (fuel : nat) (representation_id : string)
        (init : bool) (back_off_factor : Q) (w : World)
        (period : Period.t) (rest : list Period.t) (rep : Representation.t) (e : Py.Exn) :
  MPD.periods (self_mpd w) = period :: rest ->
  find_representation period representation_id = Some rep ->
  MPD.type_ (self_mpd w) = "dynamic" ->
  closed_at w (closed_reads w) = false ->
  let w1 := after_segments (refresh_wait (self_mpd w) period * back_off_factor)
              (Representation.segments rep init) (read_closed w).2 in
  closed_at w1 (closed_reads w1) = false ->
  match http_at w1 (http_gets w1) with
  | None => e = Py.StreamError
  | Some res => Response.manifest res = inl e
  end ->
  let c := cycle representation_id init back_off_factor (read_closed w).2 in
  let r := loop (S fuel) representation_id init back_off_factor w in
  c.1 = Raise e /\ self_mpd c.2 = self_mpd w /\
  r.1 = Raise e /\ self_mpd r.2 = self_mpd w.
Proof.
  intros Hperiods Hfind Hdyn Hopen. cbn zeta. intros Hopen1 Hfail.
  assert (cycle representation_id init back_off_factor (read_closed w).2
          = (Raise e, (reload (after_segments
                                 (refresh_wait (self_mpd w) period * back_off_factor)
                                 (Representation.segments rep init) (read_closed w).2)).2)
          /\ self_mpd (reload (after_segments
                                 (refresh_wait (self_mpd w) period * back_off_factor)
                                 (Representation.segments rep init) (read_closed w).2)).2
             = self_mpd w) as [Hcycle Hmpd].
  { rewrite (cycle_found representation_id init back_off_factor (read_closed w).2
               period rest rep Hperiods Hfind).
    cbn [read_closed snd self_mpd]. rewrite Hdyn. cbn [String.eqb Ascii.eqb Bool.eqb].
    set (w1 := after_segments _ _ _) in *.
    destruct (after_segments_frame (refresh_wait (self_mpd w) period * back_off_factor)
                (Representation.segments rep init) (read_closed w).2)
      as (_ & _ & _ & Hm1 & _).
    fold w1 in Hm1. cbn [read_closed snd self_mpd] in Hm1.
    destruct (reload_failure w1 e Hopen1 Hfail) as [Hres Hm2].
    destruct (reload w1) as [res w2]. cbn [fst snd] in *. subst res.
    split; [reflexivity|congruence]. }
  rewrite loop_step, Hopen, Hcycle. cbn [fst snd]. auto.
Qed.

End ReloadFailure.

(** The unreachable sample: the first reload fails and ends the generator. *)
Lemma reload_failure_propagates_witness :
  (DASHStreamWorker.iter_segments 3 "v1" Sample.unreachable).1 = Raise Py.StreamError /\
  self_mpd (DASHStreamWorker.iter_segments 3 "v1" Sample.unreachable).2
  = self_mpd Sample.unreachable.
Proof.
  destruct (reload_failure_propagates 2 "v1" true 1 Sample.unreachable
              (Period.mk 0 Sample.tracks) [] Sample.video_720 Py.StreamError
              eq_refl eq_refl eq_refl eq_refl eq_refl eq_refl)
    as (_ & _ & Hres & Hm).
  split; [exact Hres | exact Hm].
Defined.

(** C3 as stated fails. A reload that finds the manifest unchanged lets
    the loop go on with a grown back-off factor; a reload that fails, by
    the transport or on malformed content, ends the scheduling loop with
    the exception instead. *)
Lemma reload_failure_counterexample :
  (DASHStreamWorker.cycle "v1" true 1 Sample.stalled).1
  = Return (DASHStreamWorker.Next false (DASHStreamWorker.grow 1)) /\
  (DASHStreamWorker.cycle "v1" true 1 Sample.unreachable).1 = Raise Py.StreamError /\
  (DASHStreamWorker.iter_segments 3 "v1" Sample.unreachable).1 = Raise Py.StreamError /\
  (DASHStreamWorker.iter_segments 3 "v1" Sample.malformed).1
  = Raise (Py.PluginError "Unable to parse XML").
Proof.
  repeat split; reflexivity.
Qed.

(* --------------------------------------------------------------------- *)
(** *** The back-off factor *)
(* --------------------------------------------------------------------- *)

Section BackOff.

Import DASHStreamWorker.

Local Open Scope Q_scope.

(** [max(x, 10.0)] is a floor, not a cap: the factor is at least 10 after
    every reload that reports no change. *)
Lemma grow_at_least_10 (b : Q) : 10 <= grow b.
Proof.
  unfold grow, Py.max. destruct (Qlt_le_dec (b * (13 # 10)) 10) as [H|H].
  - apply Qle_refl.
  - exact H.
Qed.

(** From 10 on, the factor grows by 1.3 with nothing to stop it. *)
Lemma grow_from_10 (b : Q) : 10 <= b -> grow b == b * (13 # 10).
Proof.
  intros Hb. unfold grow, Py.max.
  destruct (Qlt_le_dec (b * (13 # 10)) 10) as [H|H]; [|reflexivity].
  exfalso. apply (Qlt_not_le _ _ H).
  apply Qle_trans with (10 * (13 # 10)); [discriminate|].
  apply Qmult_le_compat_r; [exact Hb | discriminate].
Qed.

Lemma grow_strictly (b : Q) : 10 <= b -> b < grow b.
Proof.
  intros Hb. rewrite (grow_from_10 b Hb).
  unfold Qlt, Qle in *. cbn in *. nia.
Qed.

(** After a cycle that reloads, the factor is 1 when the reload reported a
    change, and [grow] of the previous one otherwise. *)
Lemma back_off_after_reload (representation_id : string) (init : bool)
      (back_off_factor : Q) (w : World) (period : Period.t) (rest : list Period.t)
      (rep : Representation.t) (changed : option bool) (w2 : World) :
  MPD.periods (self_mpd w) = period :: rest ->
  find_representation period representation_id = Some rep ->
  MPD.type_ (self_mpd w) = "dynamic"%string ->
  reload (after_segments (refresh_wait (self_mpd w) period * back_off_factor)
            (Representation.segments rep init) w) = (Return changed, w2) ->
  cycle representation_id init back_off_factor w
  = (Return (Next false (match changed with
                         | Some true => 1
                         | _ => grow back_off_factor
                         end)), w2).
Proof.
  intros Hperiods Hfind Hdyn Hreload.
  rewrite (cycle_found representation_id init back_off_factor w period rest rep
             Hperiods Hfind).
  cbn zeta. rewrite Hdyn, Hreload. cbn [String.eqb Ascii.eqb Bool.eqb].
  now destruct changed as [[|]|].
Qed.

(** C1, on the code. The factor starts at 1 and a changed reload resets
    it to 1, but a reload that reports no change sets it to
    [max(factor * 1.3, 10.0)]: on the stalled sample the first such reload
    takes it from 1 to 10, not to 1.3, and the second to 13, above the
    bound of 10 that the claim gives. *)
Theorem back_off_factor_exceeds_10 :
  exists (b1 b2 : Q) (w1 w2 : World),
    cycle "v1" true 1 Sample.stalled = (Return (Next false b1), w1) /\
    cycle "v1" false b1 w1 = (Return (Next false b2), w2) /\
    b1 == 10 /\ ~ b1 == 13 # 10 /\ b2 == 13 /\ ~ b2 <= 10.
Proof.
  exists (grow 1), (grow (grow 1)),
    (cycle "v1" true 1 Sample.stalled).2,
    (cycle "v1" false (grow 1) (cycle "v1" true 1 Sample.stalled).2).2.
  split; [vm_compute; reflexivity|]. split; [vm_compute; reflexivity|].
  repeat split; try reflexivity; vm_compute; congruence.
Qed.

(** The same run seen from outside: the timer of the third pass is set to
    13 times the refresh interval of 5 seconds. *)
Lemma back_off_third_timer :
  exists d : Q,
    filter is_timer (trace (iter_segments 3 "v1" Sample.stalled).2)
    = [ESleeper (5 * 1); ESleeper (5 * 10); ESleeper d] /\ d == 5 * 13.
Proof.
  eexists. split; [vm_compute; reflexivity | reflexivity].
Qed.

End BackOff.

(* --------------------------------------------------------------------- *)
(** *** DASHStream.parse_manifest *)
(* --------------------------------------------------------------------- *)

Section Selection.

Import DASHStream.

Lemma classify_partition (reps : list Representation.t) :
  forall found,
    foldl classify found reps
    = (found.1 ++ List.filter is_video reps, found.2 ++ List.filter is_audio reps).
Proof.
  induction reps as [|rep reps IH]; intros [v a]; cbn [foldl List.filter fst snd].
  - now rewrite !app_nil_r.
  - rewrite IH. unfold classify, is_audio, is_video. cbn [fst snd].
    destruct (Py.startswith (Representation.mimeType rep) "video"); cbn [negb andb fst snd].
    + now rewrite <- app_assoc.
    + destruct (Py.startswith (Representation.mimeType rep) "audio"); cbn [fst snd].
      * now rewrite <- app_assoc.
      * reflexivity.
Qed.

Lemma filter_app_bool {A} (f : A -> bool) (l1 l2 : list A) :
  List.filter f (l1 ++ l2) = List.filter f l1 ++ List.filter f l2.
Proof.
  induction l1 as [|x l1 IH]; cbn; [reflexivity|].
  destruct (f x); cbn; now rewrite IH.
Qed.

(** Without protected sets the search partitions the representations. *)
Lemma search_unprotected (url : string) (asets : list AdaptationSet.t) :
  forall found w,
    Forall (fun aset => AdaptationSet.contentProtection aset = false) asets ->
    search url asets found w
    = (Return (found.1 ++ List.filter is_video (concat (AdaptationSet.representations <$> asets)),
               found.2 ++ List.filter is_audio (concat (AdaptationSet.representations <$> asets))),
       w).
Proof.
  induction asets as [|aset asets IH]; intros [v a] w Hfree; cbn [search fmap list_fmap concat].
  - cbn. now rewrite !app_nil_r.
  - inversion Hfree as [|? ? Haset Hrest]; subst. rewrite Haset.
    rewrite classify_partition, IH by assumption. cbn [fst snd].
    now rewrite !filter_app_bool, !app_assoc.
Qed.

(** With a protected set the search raises, whatever was found before. *)
Lemma search_protected (url : string) (asets : list AdaptationSet.t) :
  forall found w,
    Exists (fun aset => AdaptationSet.contentProtection aset = true) asets ->
    search url asets found w
    = (Raise (Py.PluginError (url +:+ " is protected by DRM")), w).
Proof.
  induction asets as [|aset asets IH]; intros found w Hex; [inversion Hex|].
  cbn [search]. destruct (AdaptationSet.contentProtection aset) eqn:Hp; [reflexivity|].
  inversion Hex as [? ? Hhere|? ? Hlater]; subst; [congruence|].
  now apply IH.
Qed.

(** Selection over a manifest whose first period has a protected set. *)
Lemma select_protected (url : string) (mpd : MPD.t) (period : Period.t)
      (rest : list Period.t) (w : World) :
  MPD.periods mpd = period :: rest ->
  Exists (fun aset => AdaptationSet.contentProtection aset = true)
         (Period.adaptationSets period) ->
  select url mpd w = (Raise (Py.PluginError (url +:+ " is protected by DRM")), w).
Proof.
  intros Hperiods Hex. unfold select, DASHStreamWorker.first_period.
  rewrite Hperiods. unfold mbind, M_bind, mret at 1, M_ret at 1.
  now rewrite search_protected.
Qed.

Variable urlparse : string -> list string.
Variable urlunparse : list string -> string.

(** C6. When the first period of the fetched manifest contains an
    adaptation set with the content-protection flag set, [parse_manifest]
    raises the "protected by DRM" error and returns no stream at all, also
    when unprotected sets stand beside the protected one. *)
Theorem protected_manifest_is_rejected (url : string) (w : World)
        (res : Response.t) (urlp : list string) (doc : Doc.t)
        (period : Period.t) (rest : list Period.t) :
  http_at w (http_gets w) = Some res ->
  strip_last_segment (urlparse (Response.url res)) = inr urlp ->
  Response.manifest res = inr doc ->
  Doc.periods doc = period :: rest ->
  Exists (fun aset => AdaptationSet.contentProtection aset = true)
         (Period.adaptationSets period) ->
  (parse_manifest urlparse urlunparse url w).1
  = Raise (Py.PluginError (Response.url res +:+ " is protected by DRM")).
Proof.
  intros Hget Hstrip Hxml Hperiods Hex. unfold parse_manifest.
  unfold mbind at 1, M_bind at 1, http_get at 1. rewrite Hget.
  rewrite Hstrip. unfold mbind at 1, M_bind at 1, lift at 1, mret at 1, M_ret at 1.
  unfold mbind at 1, M_bind at 1, http_xml at 1. rewrite Hxml.
  unfold lift, mret at 1, M_ret at 1.
  now rewrite (select_protected _ _ period rest).
Qed.

End Selection.

(** A manifest whose video is free and whose audio is protected. *)
Lemma protected_manifest_is_rejected_witness :
  let asets := [Sample.aset false [Sample.video_720];
                Sample.aset true [Sample.audio_128; Sample.audio_96]] in
  let w := Sample.world Sample.never_closed
             (fun _ => Some (Sample.response (inr (Sample.doc "static" 1 asets))))
             (Sample.mpd "static" 1 []) in
  (DASHStream.parse_manifest Sample.urlparse Sample.urlunparse
     "http://host/live/m.mpd" w).1
  = Raise (Py.PluginError "http://host/live/m.mpd is protected by DRM").
Proof.
  cbn zeta.
  apply (protected_manifest_is_rejected Sample.urlparse Sample.urlunparse
           "http://host/live/m.mpd" _
           (Sample.response
              (inr (Sample.doc "static" 1
                      [Sample.aset false [Sample.video_720];
                       Sample.aset true [Sample.audio_128; Sample.audio_96]])))
           ["http"; "host"; "/live"; ""; ""; ""]
           (Sample.doc "static" 1
              [Sample.aset false [Sample.video_720];
               Sample.aset true [Sample.audio_128; Sample.audio_96]])
           (Period.mk 0 [Sample.aset false [Sample.video_720];
                         Sample.aset true [Sample.audio_128; Sample.audio_96]])
           []); try reflexivity.
  apply Exists_cons_tl, Exists_cons_hd. reflexivity.
Defined.

Section Variants.

Import DASHStream.

Variable mpd : MPD.t.

(** A name that [stream_name] gives is formed as [named] says. *)
Lemma stream_name_named (audio : list (option Representation.t))
      (vid aud : option Representation.t) (name : string) :
  stream_name audio vid aud = inr name -> named audio (vid, aud) name.
Proof.
  unfold stream_name, named. intros H.
  assert (exists v, match vid with
                    | Some vid => append [] (video_name vid)
                    | None => inr []
                    end = inr v /\ video_part vid v) as (v & Hv & Hvp).
  { destruct vid as [vid|]; [|exists []; split; reflexivity].
    unfold video_name, video_part in *.
    destruct (Representation.height vid) as [h|] eqn:Hh; cbn [Py.truthyZ] in *.
    - destruct (Z.eqb_spec h 0) as [->|Hh0]; cbn [negb] in *.
      + destruct (Representation.bandwidth vid) as [b|]; cbn in *; [|discriminate].
        eexists. split; [reflexivity|]. right. split; [now right|]. now exists b.
      + cbn. eexists. split; [reflexivity|]. left. now exists h.
    - destruct (Representation.bandwidth vid) as [b|]; cbn in *; [|discriminate].
      eexists. split; [reflexivity|]. right. split; [now left|]. now exists b. }
  rewrite Hv in H. exists v.
  destruct (Nat.ltb_spec 1 (length audio)) as [Hmany|Hone].
  - unfold audio_name in H. destruct aud as [r|]; cbn in H; [|discriminate].
    destruct (Representation.bandwidth r) as [b|] eqn:Hb; cbn in H; [|discriminate].
    injection H as <-. eexists. split; [reflexivity|]. split; [exact Hvp|].
    right. split; [exact Hmany|]. now exists r, b.
  - injection H as <-. exists []. rewrite app_nil_r. split; [reflexivity|].
    split; [exact Hvp|]. left. now split.
Qed.

(** When every name can be formed, the loop stores every pair under its
    name, in order. *)
Lemma build_stores (audio : list (option Representation.t))
      (pairs : list (option Representation.t * option Representation.t))
      (names : list string) :
  Forall2 (fun pair name => stream_name audio pair.1 pair.2 = inr name) pairs names ->
  forall ret w,
    build mpd audio pairs ret w = (Return (foldl (store mpd) ret (zip pairs names)), w).
Proof.
  induction 1 as [|[vid aud] name pairs names Hname _ IH]; intros ret w; [reflexivity|].
  cbn [build zip zip_with foldl]. cbn [fst snd] in Hname. rewrite Hname.
  unfold mbind, M_bind, lift, mret, M_ret. apply IH.
Qed.

(** Under a name the dict holds the stream of the last pair so named. *)
Lemma stored_lookup (entries : list ((option Representation.t * option Representation.t) * string))
      (name : string) :
  foldl (store mpd) ∅ entries !! name = last (omap (pick mpd name) entries).
Proof.
  induction entries as [|entry entries IH] using rev_ind; [reflexivity|].
  rewrite foldl_snoc, omap_app. unfold store at 1. cbn [omap list_omap]. unfold pick at 2.
  destruct (decide (entry.2 = name)) as [<-|Hne].
  - now rewrite lookup_insert_eq, last_snoc.
  - now rewrite lookup_insert_ne, app_nil_r.
Qed.

Lemma pick_fresh (entries : list ((option Representation.t * option Representation.t) * string))
      (name : string) :
  name ∉ entries.*2 -> omap (pick mpd name) entries = [].
Proof.
  induction entries as [|entry entries IH]; [reflexivity|].
  cbn [fmap list_fmap omap list_omap]. intros Hfresh.
  apply not_elem_of_cons in Hfresh as [Hne Hfresh]. unfold pick at 1.
  destruct (decide (entry.2 = name)); [congruence|]. now apply IH.
Qed.

(** The dict has at most one stream per pair, and one per pair when no
    two names are the same. *)
Lemma stored_size (entries : list ((option Representation.t * option Representation.t) * string)) :
  (size (foldl (store mpd) ∅ entries) <= length entries)%nat /\
  (NoDup entries.*2 -> size (foldl (store mpd) ∅ entries) = length entries).
Proof.
  induction entries as [|entry entries [IHle IHeq]] using rev_ind.
  - split; [|intros _]; cbn; now rewrite map_size_empty.
  - rewrite foldl_snoc, length_app, fmap_app. unfold store at 1 3. cbn [length fmap list_fmap].
    rewrite map_size_insert. split.
    + destruct (foldl (store mpd) ∅ entries !! entry.2); cbn; lia.
    + intros Hnodup. apply NoDup_app in Hnodup as (Hnodup & Hfresh & _).
      rewrite stored_lookup, pick_fresh.
      * cbn. rewrite IHeq by assumption. lia.
      * intros Hin. apply (Hfresh _ Hin). now left.
Qed.

(** C7, as the code has it. Selection forms one variant per
    (video-choice x audio-choice) pair, an empty track list counting as the
    single absent choice, and names it from the video component (the
    height and "p" when there is a height other than 0, else the bandwidth
    and "k") and, exactly when there is more than one audio choice, the
    audio component "a<bandwidth>k", joined by "+". The variants are put in
    a dict under their names, so under each name the result holds the
    variant of the last pair with that name: it has at most one variant
    per pair, and exactly one per pair when the names are all different. *)
Theorem select_one_variant_per_name (url : string) (period : Period.t)
        (rest : list Period.t) (names : list string) (w : World) :
  MPD.periods mpd = period :: rest ->
  Forall (fun aset => AdaptationSet.contentProtection aset = false)
         (Period.adaptationSets period) ->
  let video := video_choices period in
  let audio := audio_choices period in
  let pairs := list_prod video audio in
  Forall2 (fun pair name => stream_name audio pair.1 pair.2 = inr name) pairs names ->
  exists ret : gmap string DASHStream.t,
    select url mpd w = (Return ret, w) /\
    length pairs = (length video * length audio)%nat /\
    Forall2 (named audio) pairs names /\
    (forall name, ret !! name = last (omap (pick mpd name) (zip pairs names))) /\
    (size ret <= length pairs)%nat /\
    (NoDup names -> size ret = length pairs).
Proof.
  intros Hperiods Hfree. cbn zeta. intros Hnames.
  exists (foldl (store mpd) ∅ (zip (list_prod (video_choices period) (audio_choices period)) names)).
  assert (length (zip (list_prod (video_choices period) (audio_choices period)) names)
          = length (list_prod (video_choices period) (audio_choices period))) as Hlen.
  { rewrite length_zip_with_l_eq; [reflexivity|]. now apply Forall2_length in Hnames. }
  repeat split.
  - unfold select, DASHStreamWorker.first_period. rewrite Hperiods.
    unfold mbind at 1, M_bind at 1, mret at 1, M_ret at 1.
    unfold mbind at 1, M_bind at 1.
    rewrite search_unprotected by assumption. cbn [fst snd app].
    now apply build_stores.
  - apply length_prod.
  - eapply Forall2_impl; [exact Hnames|].
    intros [vid aud] name Hname. now apply stream_name_named.
  - intros name. apply stored_lookup.
  - rewrite <- Hlen. apply stored_size.
  - intros Hnodup. rewrite <- Hlen. apply stored_size.
    rewrite snd_zip; [exact Hnodup|]. apply Forall2_length in Hnames. lia.
Qed.

End Variants.

(** Two video and two audio representations: four variants. *)
Lemma select_one_variant_per_name_witness :
  let m := Sample.mpd "static" 1
             [Sample.aset false [Sample.video_720; Sample.video_no_height];
              Sample.aset false [Sample.audio_128; Sample.audio_96]] in
  exists ret : gmap string DASHStream.t,
    DASHStream.select "u" m Sample.on_demand = (Return ret, Sample.on_demand) /\
    size ret = 4%nat /\
    ret !! "720p+a96k"
    = Some (DASHStream.new m (Some Sample.video_720) (Some Sample.audio_96)) /\
    ret !! "1500k+a128k"
    = Some (DASHStream.new m (Some Sample.video_no_height) (Some Sample.audio_128)).
Proof.
  cbn zeta.
  destruct (select_one_variant_per_name
              (Sample.mpd "static" 1
                 [Sample.aset false [Sample.video_720; Sample.video_no_height];
                  Sample.aset false [Sample.audio_128; Sample.audio_96]])
              "u"
              (Period.mk 0 [Sample.aset false [Sample.video_720; Sample.video_no_height];
                            Sample.aset false [Sample.audio_128; Sample.audio_96]])
              []
              ["720p+a128k"; "720p+a96k"; "1500k+a128k"; "1500k+a96k"]
              Sample.on_demand eq_refl
              ltac:(repeat constructor) ltac:(repeat constructor))
    as (ret & Hsel & _ & _ & Hlook & _ & Hsize).
  exists ret. split; [exact Hsel|]. split; [|split].
  - rewrite Hsize; [reflexivity|]. apply (bool_decide_unpack _). vm_compute. exact I.
  - rewrite Hlook. reflexivity.
  - rewrite Hlook. reflexivity.
Defined.

(** C7 as stated fails. Two video representations of the same height at
    different bandwidths, with one audio representation, make two pairs
    but one variant: both are named "720p" and the second replaces the
    first in the dict. And a height of 0, though present, is not used for
    the name: the variant is named by its bandwidth. *)
Lemma select_one_variant_per_pair_counterexample :
  let period := Period.mk 0 [Sample.aset false [Sample.video_720; Sample.video_720_hi];
                             Sample.aset false [Sample.audio_128]] in
  let m := Sample.mpd "static" 1 (Period.adaptationSets period) in
  length (list_prod (video_choices period) (audio_choices period)) = 2%nat /\
  (exists ret : gmap string DASHStream.t,
      (DASHStream.select "u" m Sample.on_demand).1 = Return ret /\
      size ret = 1%nat /\
      ret !! "720p"
      = Some (DASHStream.new m (Some Sample.video_720_hi) (Some Sample.audio_128))) /\
  Representation.height Sample.video_height_0 = Some 0 /\
  DASHStream.stream_name [Some Sample.audio_128]
    (Some Sample.video_height_0) (Some Sample.audio_128) = inr "1500k".
Proof.
  cbn zeta. split; [reflexivity|]. split; [|split; reflexivity].
  eexists. split; [vm_compute; reflexivity|]. split; vm_compute; reflexivity.
Qed.

(* --------------------------------------------------------------------- *)
(** *** DASHStream.open *)
(* --------------------------------------------------------------------- *)

Section Open.

Import DASHStream.

(** A stream without representations opens nothing and returns [None]. *)
Lemma open_nothing (self : DASHStream.t) (w : World) :
  video_representation self = None ->
  audio_representation self = None ->
  open self w = (Return None, w).
Proof. intros Hv Ha. unfold open. now rewrite Hv, Ha. Qed.

Lemma filter_none {A} (f : A -> bool) (l : list A) :
  Forall (fun x => f x = false) l -> List.filter f l = [].
Proof.
  induction 1 as [|x l Hx _ IH]; cbn; [reflexivity|]. now rewrite Hx.
Qed.

(** C10. Selection over a manifest (unprotected) that has neither a video
    nor an audio representation gives exactly one variant, under the empty
    name, with no video and no audio representation; opening a variant
    without representations starts no reader and no muxer (the world is
    left as it was) and returns [None], not a stream. *)
Theorem stream_without_tracks_opens_nothing (url : string) (mpd : MPD.t)
        (period : Period.t) (rest : list Period.t) (w : World) :
  MPD.periods mpd = period :: rest ->
  Forall (fun aset => AdaptationSet.contentProtection aset = false)
         (Period.adaptationSets period) ->
  Forall (fun rep => is_video rep = false /\ is_audio rep = false)
         (representations_of period) ->
  select url mpd w = (Return {[ "" := DASHStream.new mpd None None ]}, w) /\
  (forall (self : DASHStream.t) (w' : World),
      video_representation self = None ->
      audio_representation self = None ->
      open self w' = (Return None, w') /\ trace (open self w').2 = trace w') /\
  forall w', open (DASHStream.new mpd None None) w' = (Return None, w').
Proof.
  intros Hperiods Hfree Hnone. split; [|split].
  - unfold select, DASHStreamWorker.first_period. rewrite Hperiods.
    unfold mbind at 1, M_bind at 1, mret at 1, M_ret at 1.
    unfold mbind at 1, M_bind at 1.
    rewrite search_unprotected by assumption. cbn [fst snd app].
    fold (representations_of period).
    rewrite !filter_none by (eapply Forall_impl; [exact Hnone|]; cbn; tauto).
    reflexivity.
  - intros self w' Hv Ha. rewrite open_nothing by assumption. now split.
  - intros w'. now apply open_nothing.
Qed.

End Open.

(** A manifest with subtitles only. *)
Lemma stream_without_tracks_opens_nothing_witness :
  let m := Sample.mpd "static" 1 [Sample.aset false [Sample.subtitles]] in
  DASHStream.select "u" m Sample.on_demand
  = (Return {[ "" := DASHStream.new m None None ]}, Sample.on_demand) /\
  DASHStream.open (DASHStream.new m None None) Sample.on_demand
  = (Return None, Sample.on_demand).
Proof.
  cbn zeta.
  destruct (stream_without_tracks_opens_nothing "u"
              (Sample.mpd "static" 1 [Sample.aset false [Sample.subtitles]])
              (Period.mk 0 [Sample.aset false [Sample.subtitles]]) []
              Sample.on_demand eq_refl
              ltac:(repeat constructor) ltac:(repeat constructor))
    as (Hsel & _ & Hopen).
  split; [exact Hsel | exact (Hopen Sample.on_demand)].
Defined.

(* ===================================================================== *)
(** ** Further properties *)
(* ===================================================================== *)

(* --------------------------------------------------------------------- *)
(** *** DASHStreamWriter.fetch: waiting, success, exhaustion *)
(* --------------------------------------------------------------------- *)

Section FetchMore.

Import DASHStreamWriter.

Variable timeout : option Q.
Variable segment : Segment.t.

(** The events and the clock of one attempt. *)
Lemma download_events (w : World) :
  let r := download timeout segment w in
  trace r.2
  = trace w ++ (if clock w <? Segment.available_at segment
                then [ESleepUntil (Segment.available_at segment)] else [])
            ++ [EGet (Segment.url segment) timeout] /\
  clock r.2 = Z.max (clock w) (Segment.available_at segment).
Proof.
  unfold download. run.
  destruct (Z.ltb_spec (clock w) (Segment.available_at segment)); cbn;
    destruct (http_at w (http_gets w)); cbn; rewrite <- ?app_assoc; split;
    try reflexivity; lia.
Qed.

(** Once the segment is available, [fetch] only issues requests. *)
Lemma fetch_events_available (fuel : nat) :
  forall (n : Z) (w : World),
    Segment.available_at segment <= clock w ->
    0 <= n -> (Z.to_nat n < fuel)%nat ->
    let r := fetch fuel timeout segment (Some n) w in
    exists k : nat,
      (k <= Z.to_nat n)%nat /\
      trace r.2 = trace w ++ replicate k (EGet (Segment.url segment) timeout) /\
      http_gets r.2 = (http_gets w + k)%nat /\ clock r.2 = clock w.
Proof.
  induction fuel as [|fuel IH]; intros n w Hav Hn Hfuel; [lia|]. cbn zeta.
  destruct (closed_at w (closed_reads w)) eqn:Hc.
  { rewrite fetch_closed by assumption. exists 0%nat. cbn.
    rewrite app_nil_r. repeat split; lia. }
  destruct (Z.eq_dec n 0) as [->|Hn0].
  { rewrite fetch_no_budget by reflexivity. exists 0%nat. cbn.
    rewrite app_nil_r. repeat split; lia. }
  rewrite fetch_attempt by assumption.
  destruct (download_events (read_closed w).2) as [Htr Hclock].
  destruct (download_attempt timeout segment (read_closed w).2)
    as (_ & _ & _ & _ & Hg & _).
  set (w1 := (download timeout segment (read_closed w).2).2) in *.
  cbn [read_closed snd clock trace http_gets] in Htr, Hclock, Hg.
  assert ((clock w <? Segment.available_at segment) = false) as Hlate
      by (apply Z.ltb_ge; lia).
  rewrite Hlate in Htr. cbn [app] in Htr.
  assert (clock w1 = clock w) as Hclock1 by lia.
  destruct (http_at w (http_gets w)).
  - exists 1%nat. cbn [fst snd replicate]. repeat split; try lia; assumption.
  - destruct (IH (n - 1) w1 ltac:(lia) ltac:(lia) ltac:(lia))
      as (k & Hk & Htr' & Hg' & Hclock').
    exists (S k). rewrite Htr', Htr, Hg', Hg, Hclock', <- app_assoc. cbn.
    repeat split; lia.
Qed.

(** X1. [fetch] never asks for a segment before it is available, and waits
    at most once: the events of a call with budget [n >= 0] are [k <= n]
    requests for the segment's url, preceded by one [sleep_until] to the
    availability time exactly when a request is made and the clock was
    before that time. The retries follow without further waiting, and
    after a request the clock is not before the availability time. *)
Theorem fetch_waits_once (fuel : nat) (n : Z) (w : World) :
  0 <= n -> (Z.to_nat n < fuel)%nat ->
  let r := fetch fuel timeout segment (Some n) w in
  exists k : nat,
    (k <= Z.to_nat n)%nat /\
    trace r.2
    = trace w ++ (if (0 <? k)%nat && (clock w <? Segment.available_at segment)
                  then [ESleepUntil (Segment.available_at segment)] else [])
              ++ replicate k (EGet (Segment.url segment) timeout) /\
    http_gets r.2 = (http_gets w + k)%nat /\
    clock r.2 = (if (0 <? k)%nat
                 then Z.max (clock w) (Segment.available_at segment)
                 else clock w).
Proof.
  intros Hn Hfuel. destruct fuel as [|fuel]; [lia|]. cbn zeta.
  destruct (closed_at w (closed_reads w)) eqn:Hc.
  { rewrite fetch_closed by assumption. exists 0%nat. cbn.
    rewrite app_nil_r. repeat split; lia. }
  destruct (Z.eq_dec n 0) as [->|Hn0].
  { rewrite fetch_no_budget by reflexivity. exists 0%nat. cbn.
    rewrite app_nil_r. repeat split; lia. }
  rewrite fetch_attempt by assumption.
  destruct (download_events (read_closed w).2) as [Htr Hclock].
  destruct (download_attempt timeout segment (read_closed w).2)
    as (_ & _ & _ & _ & Hg & _).
  set (w1 := (download timeout segment (read_closed w).2).2) in *.
  cbn [read_closed snd clock trace http_gets] in Htr, Hclock, Hg.
  destruct (http_at w (http_gets w)).
  - exists 1%nat. cbn [fst snd replicate Nat.ltb Nat.leb andb].
    repeat split; try lia; assumption.
  - destruct (fetch_events_available fuel (n - 1) w1 ltac:(lia) ltac:(lia) ltac:(lia))
      as (k & Hk & Htr' & Hg' & Hclock').
    exists (S k). rewrite Htr', Htr, Hg', Hg, Hclock', Hclock, <- !app_assoc.
    cbn [replicate Nat.ltb Nat.leb andb app]. repeat split; lia.
Qed.

(** X2. When the transport fails [j] times and then answers, a budget
    above [j] is enough, if the writer is not closed meanwhile: [fetch]
    returns that answer after exactly [j + 1] requests. *)
Theorem fetch_succeeds_after_failures (j : nat) :
  forall (fuel : nat) (n : Z) (w : World) (res : Response.t),
    (j < fuel)%nat -> Z.of_nat j < n ->
    (forall i, (i <= j)%nat -> closed_at w (closed_reads w + i) = false) ->
    (forall i, (i < j)%nat -> http_at w (http_gets w + i) = None) ->
    http_at w (http_gets w + j) = Some res ->
    let r := fetch fuel timeout segment (Some n) w in
    r.1 = Return (Some res) /\ http_gets r.2 = (http_gets w + S j)%nat.
Proof.
  induction j as [|j IH]; intros fuel n w res Hfuel Hn Hopen Hfail Hok;
    (destruct fuel as [|fuel]; [lia|]); cbn zeta.
  - rewrite fetch_attempt; [|lia|].
    2: { specialize (Hopen 0%nat ltac:(lia)). now rewrite Nat.add_0_r in Hopen. }
    rewrite Nat.add_0_r in Hok. rewrite Hok. cbn [fst snd].
    destruct (download_attempt timeout segment (read_closed w).2)
      as (_ & _ & _ & _ & Hg & _).
    set (w1 := (download timeout segment (read_closed w).2).2) in *.
    cbn [read_closed snd http_gets] in Hg. split; [reflexivity|lia].
  - rewrite fetch_attempt; [|lia|].
    2: { specialize (Hopen 0%nat ltac:(lia)). now rewrite Nat.add_0_r in Hopen. }
    rewrite <- (Nat.add_0_r (http_gets w)), (Hfail 0%nat) by lia.
    destruct (download_attempt timeout segment (read_closed w).2)
      as (_ & Hca & Hcr & Hha & Hg & _).
    set (w1 := (download timeout segment (read_closed w).2).2) in *.
    cbn [read_closed snd closed_at closed_reads http_at http_gets] in Hca, Hcr, Hha, Hg.
    destruct (IH fuel (n - 1) w1 res ltac:(lia) ltac:(lia)) as [Hres Hg'].
    + intros i Hi. rewrite Hca, Hcr.
      replace (S (closed_reads w) + i)%nat with (closed_reads w + S i)%nat by lia.
      apply Hopen. lia.
    + intros i Hi. rewrite Hha, Hg.
      replace (S (http_gets w) + i)%nat with (http_gets w + S i)%nat by lia.
      apply Hfail. lia.
    + rewrite Hha, Hg.
      now replace (S (http_gets w) + j)%nat with (http_gets w + S j)%nat by lia.
    + split; [exact Hres|]. rewrite Hg', Hg. lia.
Qed.

(** X3. When the transport fails every time and the writer stays open, a
    budget [n >= 0] is used up: [fetch] makes exactly [n] requests, then
    returns nothing, without an exception and without touching the
    buffer. *)
Theorem fetch_gives_up_after_budget (fuel : nat) :
  forall (n : Z) (w : World),
    0 <= n -> (Z.to_nat n < fuel)%nat ->
    (forall i, (i < Z.to_nat n)%nat -> closed_at w (closed_reads w + i) = false) ->
    (forall i, (i < Z.to_nat n)%nat -> http_at w (http_gets w + i) = None) ->
    let r := fetch fuel timeout segment (Some n) w in
    r.1 = Return None /\ http_gets r.2 = (http_gets w + Z.to_nat n)%nat /\
    buffer r.2 = buffer w.
Proof.
  induction fuel as [|fuel IH]; intros n w Hn Hfuel Hopen Hfail; [lia|]. cbn zeta.
  destruct (Z.eq_dec n 0) as [->|Hn0].
  { rewrite fetch_no_budget by reflexivity. cbn. repeat split; lia. }
  rewrite fetch_attempt; [|assumption|].
  2: { specialize (Hopen 0%nat ltac:(lia)). now rewrite Nat.add_0_r in Hopen. }
  rewrite <- (Nat.add_0_r (http_gets w)), (Hfail 0%nat) by lia.
  destruct (download_attempt timeout segment (read_closed w).2)
    as (_ & Hca & Hcr & Hha & Hg & Hb & _).
  set (w1 := (download timeout segment (read_closed w).2).2) in *.
  cbn [read_closed snd closed_at closed_reads http_at http_gets buffer]
    in Hca, Hcr, Hha, Hg, Hb.
  destruct (IH (n - 1) w1 ltac:(lia) ltac:(lia)) as (Hres & Hg' & Hb').
  - intros i Hi. rewrite Hca, Hcr.
    replace (S (closed_reads w) + i)%nat with (closed_reads w + S i)%nat by lia.
    apply Hopen. lia.
  - intros i Hi. rewrite Hha, Hg.
    replace (S (http_gets w) + i)%nat with (http_gets w + S i)%nat by lia.
    apply Hfail. lia.
  - split; [exact Hres|]. split; [rewrite Hg', Hg; lia | congruence].
Qed.

End FetchMore.

(** A segment available at 10, asked for at 0 from a server that never
    answers: one wait, then the three requests of the budget. *)
Lemma fetch_waits_once_witness :
  0 <= 3 /\ (Z.to_nat 3 < 4)%nat /\
  let r := DASHStreamWriter.fetch 4 None (Sample.seg "v1/1.m4s" 10) (Some 3)
             Sample.unreachable in
  exists k : nat,
    (k <= Z.to_nat 3)%nat /\
    trace r.2
    = trace Sample.unreachable
      ++ (if (0 <? k)%nat && (clock Sample.unreachable <? 10)
          then [ESleepUntil 10] else [])
      ++ replicate k (EGet "v1/1.m4s" None) /\
    http_gets r.2 = (http_gets Sample.unreachable + k)%nat /\
    clock r.2 = (if (0 <? k)%nat then Z.max (clock Sample.unreachable) 10
                 else clock Sample.unreachable).
Proof.
  split; [lia|]. split; [cbn; lia|].
  exact (fetch_waits_once None (Sample.seg "v1/1.m4s" 10) 4 3 Sample.unreachable
           ltac:(lia) ltac:(cbn; lia)).
Defined.

(** Two failures, then the answer, with a budget of three. *)
Lemma fetch_succeeds_after_failures_witness :
  let r := DASHStreamWriter.fetch 3 None (Sample.seg "v1/1.m4s" 10) (Some 3)
             Sample.flaky in
  (exists res, r.1 = Return (Some res) /\ Response.url res = "v1/1.m4s") /\
  http_gets r.2 = 3%nat.
Proof.
  destruct (fetch_succeeds_after_failures None (Sample.seg "v1/1.m4s" 10) 2 3 3
              Sample.flaky
              (Response.mk "v1/1.m4s" (fun _ => [[Byte.x00]; [Byte.x01]])
                           (inl Py.ValueError))
              ltac:(lia) ltac:(lia) (fun _ _ => eq_refl))
    as [Hres Hg].
  - intros [|[|i]] Hi; [reflexivity|reflexivity|lia].
  - reflexivity.
  - split; [|exact Hg]. eexists. split; [exact Hres|reflexivity].
Defined.

(** A budget of three against a server that never answers. *)
Lemma fetch_gives_up_after_budget_witness :
  let r := DASHStreamWriter.fetch 4 None (Sample.seg "v1/1.m4s" 10) (Some 3)
             Sample.unreachable in
  r.1 = Return None /\ http_gets r.2 = 3%nat /\ buffer r.2 = [].
Proof.
  exact (fetch_gives_up_after_budget None (Sample.seg "v1/1.m4s" 10) 4 3
           Sample.unreachable ltac:(lia) ltac:(cbn; lia)
           (fun _ _ => eq_refl) (fun _ _ => eq_refl)).
Defined.

(* --------------------------------------------------------------------- *)
(** *** DASHStreamWriter.write: whole bodies and successive segments *)
(* --------------------------------------------------------------------- *)

Section WriteMore.

Import DASHStreamWriter.

(** When the first [k] reads of the flag find it clear and the next one,
    if there is a chunk left, finds it set, the first [k] chunks are
    written. *)
Lemma write_chunks_until (chunks : list Chunk) :
  forall (k : nat) (w : World),
    (k <= length chunks)%nat ->
    (forall i, (i < k)%nat -> closed_at w (closed_reads w + i) = false) ->
    ((k < length chunks)%nat -> closed_at w (closed_reads w + k) = true) ->
    buffer (write_chunks chunks w).2 = buffer w ++ concat (take k chunks) /\
    closed_reads (write_chunks chunks w).2
    = (closed_reads w + (if (k <? length chunks)%nat then S k else k))%nat.
Proof.
  induction chunks as [|chunk rest IH]; intros k w Hk Hbefore Hat.
  - cbn in Hk. assert (k = 0)%nat as -> by lia. cbn.
    rewrite app_nil_r. split; [reflexivity|lia].
  - cbn [write_chunks]. run. destruct k as [|k].
    + assert (closed_at w (closed_reads w) = true) as ->
          by (rewrite <- (Nat.add_0_r (closed_reads w)); apply Hat; cbn; lia).
      cbn. rewrite app_nil_r. split; [reflexivity|lia].
    + assert (closed_at w (closed_reads w) = false) as ->
          by (rewrite <- (Nat.add_0_r (closed_reads w)); apply Hbefore; lia).
      cbn [negb].
      destruct (IH k (mkWorld (closed_at w) (S (closed_reads w)) (http_at w)
                              (http_gets w) (clock w) (buffer w ++ chunk)
                              (self_mpd w) (trace w))) as [Hbuf Hreads].
      * cbn in Hk. lia.
      * intros i Hi. cbn [closed_at closed_reads].
        replace (S (closed_reads w) + i)%nat with (closed_reads w + S i)%nat by lia.
        apply Hbefore. lia.
      * intros Hlt. cbn [closed_at closed_reads].
        replace (S (closed_reads w) + k)%nat with (closed_reads w + S k)%nat by lia.
        apply Hat. cbn. lia.
      * fields. rewrite Hbuf, Hreads. cbn [take concat length].
        rewrite <- app_assoc. split; [reflexivity|].
        destruct (Nat.ltb_spec k (length rest)),
                 (Nat.leb_spec (S k) (length rest)); lia.
Qed.

(** X4. While the writer is not closed, [write] puts the whole body into
    the buffer, chunk after chunk in order, behind what is there; it reads
    the flag once per chunk. *)
Theorem write_whole_body (segment : Segment.t) (res : Response.t)
        (chunk_size : Z) (w : World) :
  let chunks := Response.iter_content res chunk_size in
  (forall i, (i < length chunks)%nat -> closed_at w (closed_reads w + i) = false) ->
  let r := write segment res chunk_size w in
  r.1 = Return tt /\
  buffer r.2 = buffer w ++ concat chunks /\
  closed_reads r.2 = (closed_reads w + length chunks)%nat /\
  trace r.2 = trace w /\ http_gets r.2 = http_gets w.
Proof.
  cbn zeta. intros Hopen. unfold write.
  destruct (write_chunks_until (Response.iter_content res chunk_size)
              (length (Response.iter_content res chunk_size)) w
              ltac:(lia) Hopen ltac:(lia)) as [Hbuf Hreads].
  destruct (write_chunks_prefix (Response.iter_content res chunk_size) w)
    as (_ & _ & _ & _ & Hres & _).
  destruct (write_chunks_frame (Response.iter_content res chunk_size) w)
    as (_ & _ & Hg & _ & _ & Htr).
  rewrite Hbuf, Hreads, firstn_all, Nat.ltb_irrefl. auto.
Qed.

(** X5. Two segments written in turn, under a flag that stays set once
    it is set, leave in the buffer what one write of their chunks in a row
    would: the chunks of the first, then those of the second, in order, up
    to the first check that finds the flag set, and nothing after it. *)
Theorem write_successive_segments (s1 s2 : Segment.t) (r1 r2 : Response.t)
        (chunk_size : Z) (w : World) :
  (forall i j, (i <= j)%nat -> closed_at w i = true -> closed_at w j = true) ->
  buffer (write_both s1 r1 s2 r2 chunk_size w).2
  = buffer (write_chunks (Response.iter_content r1 chunk_size
                          ++ Response.iter_content r2 chunk_size) w).2.
Proof.
  intros Hmono. unfold write_both, write.
  set (c1 := Response.iter_content r1 chunk_size).
  set (c2 := Response.iter_content r2 chunk_size).
  destruct (write_chunks_prefix (c1 ++ c2) w)
    as (k & Hk & Hbefore & Hat & _ & Hbuf & _).
  rewrite Hbuf. rewrite length_app in Hk, Hat.
  unfold mbind, M_bind.
  destruct (write_chunks_prefix c1 w) as (_ & _ & _ & _ & Hres1 & _).
  destruct (write_chunks_frame c1 w) as (Hca & _).
  destruct (write_chunks c1 w) as [res1 w1] eqn:Hw1. cbn [fst snd] in *. subst res1.
  destruct (Nat.lt_ge_cases k (length c1)) as [Hlt|Hge].
  - destruct (write_chunks_until c1 k w ltac:(lia) Hbefore ltac:(intros; apply Hat; lia))
      as [Hbuf1 Hreads1].
    rewrite Hw1 in Hbuf1, Hreads1. cbn [snd] in Hbuf1, Hreads1.
    apply Nat.ltb_lt in Hlt as Hltb. rewrite Hltb in Hreads1.
    destruct (write_chunks_until c2 0 w1 ltac:(lia)) as [Hbuf2 _].
    + intros i Hi. lia.
    + intros _. rewrite Hca, Nat.add_0_r, Hreads1.
      apply (Hmono (closed_reads w + k)%nat); [lia|]. apply Hat. lia.
    + rewrite Hbuf2, Hbuf1. cbn. rewrite app_nil_r, take_app_le by lia. reflexivity.
  - destruct (write_chunks_until c1 (length c1) w ltac:(lia)) as [Hbuf1 Hreads1].
    + intros i Hi. apply Hbefore. lia.
    + lia.
    + rewrite Hw1 in Hbuf1, Hreads1. cbn [snd] in Hbuf1, Hreads1.
      rewrite Nat.ltb_irrefl in Hreads1. rewrite firstn_all in Hbuf1.
      destruct (write_chunks_until c2 (k - length c1) w1 ltac:(lia)) as [Hbuf2 _].
      * intros i Hi. rewrite Hca, Hreads1, <- Nat.add_assoc. apply Hbefore. lia.
      * intros Hlt. rewrite Hca, Hreads1, <- Nat.add_assoc.
        replace (length c1 + (k - length c1))%nat with k by lia. apply Hat. lia.
      * rewrite Hbuf2, Hbuf1, take_app_ge, concat_app, app_assoc by lia. reflexivity.
Qed.

End WriteMore.

(** A body of two chunks written to an open writer. *)
Lemma write_whole_body_witness :
  let res := Response.mk "v1/1.m4s" (fun _ => [[Byte.x00]; [Byte.x01]])
                         (inl Py.ValueError) in
  let r := DASHStreamWriter.write (Sample.seg "v1/1.m4s" 10) res 8192 Sample.flaky in
  r.1 = Return tt /\ buffer r.2 = [Byte.x00; Byte.x01] /\ closed_reads r.2 = 2%nat.
Proof.
  destruct (write_whole_body (Sample.seg "v1/1.m4s" 10)
              (Response.mk "v1/1.m4s" (fun _ => [[Byte.x00]; [Byte.x01]])
                           (inl Py.ValueError))
              8192 Sample.flaky (fun _ _ => eq_refl))
    as (Hres & Hbuf & Hreads & _).
  split; [exact Hres|]. split; [exact Hbuf | exact Hreads].
Defined.

(** Two bodies of two chunks, the flag set from its third read on: the
    first body is written, nothing of the second. *)
Lemma write_successive_segments_witness :
  let res := Response.mk "v1/1.m4s" (fun _ => [[Byte.x00]; [Byte.x01]])
                         (inl Py.ValueError) in
  let w := Sample.world Sample.closed_from_third (fun _ => None)
             (Sample.mpd "dynamic" 100 Sample.tracks) in
  buffer (write_both (Sample.seg "v1/1.m4s" 10) res (Sample.seg "v1/2.m4s" 20) res
            8192 w).2
  = [Byte.x00; Byte.x01].
Proof.
  cbn zeta.
  rewrite (write_successive_segments (Sample.seg "v1/1.m4s" 10) (Sample.seg "v1/2.m4s" 20)
             (Response.mk "v1/1.m4s" (fun _ => [[Byte.x00]; [Byte.x01]])
                          (inl Py.ValueError))
             (Response.mk "v1/1.m4s" (fun _ => [[Byte.x00]; [Byte.x01]])
                          (inl Py.ValueError))
             8192 _).
  - reflexivity.
  - intros i j Hij. unfold Sample.world, Sample.closed_from_third. cbn [closed_at].
    intros Hi. apply Nat.leb_le. apply Nat.leb_le in Hi. lia.
Defined.

(* --------------------------------------------------------------------- *)
(** *** DASHStreamWorker.iter_segments: the lookup and the timer *)
(* --------------------------------------------------------------------- *)

Section Lookup.

Import DASHStreamWorker.

Lemma filter_snoc_bool {A} (f : A -> bool) (l : list A) (x : A) :
  List.filter f (l ++ [x]) = List.filter f l ++ (if f x then [x] else []).
Proof. rewrite filter_app_bool. cbn. now destruct (f x). Qed.

(** The inner loop keeps the last representation with the id, or what it
    had. *)
Lemma find_in_set (representation_id : string) (reps : list Representation.t)
      (found : option Representation.t) :
  foldl (fun representation rep =>
           if String.eqb (Representation.id rep) representation_id
           then Some rep else representation) found reps
  = match last (List.filter (has_id representation_id) reps) with
    | Some rep => Some rep
    | None => found
    end.
Proof.
  induction reps as [|rep reps IH] using rev_ind; [reflexivity|].
  rewrite foldl_snoc, filter_snoc_bool. unfold has_id at 2.
  destruct (String.eqb (Representation.id rep) representation_id).
  - now rewrite last_snoc.
  - now rewrite app_nil_r.
Qed.

Lemma find_in_sets (representation_id : string) (asets : list AdaptationSet.t) :
  forall found,
    foldl (fun representation aset =>
             foldl (fun representation rep =>
                      if String.eqb (Representation.id rep) representation_id
                      then Some rep else representation)
                   representation (AdaptationSet.representations aset))
          found asets
    = match last (List.filter (has_id representation_id)
                    (concat (AdaptationSet.representations <$> asets))) with
      | Some rep => Some rep
      | None => found
      end.
Proof.
  induction asets as [|aset asets IH]; intros found; [reflexivity|].
  cbn [foldl fmap list_fmap concat]. rewrite IH, find_in_set, filter_app_bool, last_app.
  now destruct (last (List.filter (has_id representation_id)
                        (concat (AdaptationSet.representations <$> asets)))).
Qed.

(** X6. The lookup of the bound representation gives the last
    representation of the first period, in document order, that has the
    id: so what it finds has the id and is in the period, and it finds
    nothing exactly when no representation of the period has the id. *)
Theorem find_representation_last (period : Period.t) (representation_id : string) :
  find_representation period representation_id
  = last (List.filter (has_id representation_id) (representations_of period)) /\
  (forall rep, find_representation period representation_id = Some rep ->
               Representation.id rep = representation_id /\
               rep ∈ representations_of period) /\
  (find_representation period representation_id = None <->
   forall rep, rep ∈ representations_of period ->
               Representation.id rep <> representation_id).
Proof.
  assert (find_representation period representation_id
          = last (List.filter (has_id representation_id) (representations_of period)))
    as Hlast.
  { unfold find_representation, representations_of. rewrite find_in_sets.
    now destruct (last _). }
  split; [exact Hlast|]. rewrite Hlast. split.
  - intros rep Hrep. apply last_Some_elem_of, list_elem_of_In, filter_In in Hrep
      as [Hin Hid].
    split; [now apply String.eqb_eq | now apply list_elem_of_In].
  - rewrite last_None. split.
    + intros Hnone rep Hin Hid.
      assert (In rep (List.filter (has_id representation_id) (representations_of period)))
        as Hf by (apply filter_In; split;
                  [now apply list_elem_of_In | now apply String.eqb_eq]).
      rewrite Hnone in Hf. destruct Hf.
    + intros Hall.
      destruct (List.filter (has_id representation_id) (representations_of period))
        as [|rep l] eqn:Hf; [reflexivity|].
      assert (In rep (List.filter (has_id representation_id) (representations_of period)))
        as Hin by (rewrite Hf; now left).
      apply filter_In in Hin as [Hin Hid]. exfalso.
      apply (Hall rep); [now apply list_elem_of_In | now apply String.eqb_eq].
Qed.

Local Open Scope Q_scope.

(** X7. For a manifest whose update period and first period's duration
    are not negative, the refresh interval is positive and at least each
    of the two; it is the default of 5 seconds when both are zero. *)
Theorem refresh_wait_positive (mpd : MPD.t) (period : Period.t) :
  0 <= MPD.minimumUpdatePeriod mpd -> 0 <= Period.duration period ->
  0 < refresh_wait mpd period /\
  MPD.minimumUpdatePeriod mpd <= refresh_wait mpd period /\
  Period.duration period <= refresh_wait mpd period /\
  (MPD.minimumUpdatePeriod mpd == 0 -> Period.duration period == 0 ->
   refresh_wait mpd period = 5).
Proof.
  intros Hm Hd. unfold refresh_wait, Py.or_, Py.max.
  destruct (Qlt_le_dec (MPD.minimumUpdatePeriod mpd) (Period.duration period)) as [Hlt|Hle].
  - destruct (Qeq_bool (Period.duration period) 0) eqn:Hz.
    + apply Qeq_bool_eq in Hz. rewrite Hz in Hlt.
      exfalso. apply (Qlt_not_le _ _ Hlt Hm).
    + apply Qeq_bool_neq in Hz. repeat split.
      * apply Qle_lteq in Hd as [Hd|Hd]; [exact Hd|]. symmetry in Hd. contradiction.
      * now apply Qlt_le_weak.
      * apply Qle_refl.
      * intros _ Hd0. contradiction.
  - destruct (Qeq_bool (MPD.minimumUpdatePeriod mpd) 0) eqn:Hz.
    + apply Qeq_bool_eq in Hz. split; [reflexivity|]. split; [|split].
      * rewrite Hz. discriminate.
      * apply Qle_trans with (MPD.minimumUpdatePeriod mpd); [exact Hle|].
        rewrite Hz. discriminate.
      * reflexivity.
    + apply Qeq_bool_neq in Hz. repeat split.
      * apply Qle_lteq in Hm as [Hm|Hm]; [exact Hm|]. symmetry in Hm. contradiction.
      * apply Qle_refl.
      * exact Hle.
      * intros Hm0 _. contradiction.
Qed.

End Lookup.

(** The sample period: "v1" is found, "zz" is not. *)
Lemma find_representation_last_witness :
  DASHStreamWorker.find_representation (Period.mk 0 Sample.tracks) "v1"
  = Some Sample.video_720 /\
  DASHStreamWorker.find_representation (Period.mk 0 Sample.tracks) "zz" = None.
Proof.
  destruct (find_representation_last (Period.mk 0 Sample.tracks) "v1") as [-> _].
  destruct (find_representation_last (Period.mk 0 Sample.tracks) "zz") as [-> _].
  split; reflexivity.
Defined.

(** The sample manifest says nothing of its timing: 5 seconds. *)
Lemma refresh_wait_positive_witness :
  (0 < DASHStreamWorker.refresh_wait (Sample.mpd "dynamic" 100 Sample.tracks)
                                     (Period.mk 0 Sample.tracks))%Q /\
  DASHStreamWorker.refresh_wait (Sample.mpd "dynamic" 100 Sample.tracks)
                                (Period.mk 0 Sample.tracks) = 5%Q.
Proof.
  destruct (refresh_wait_positive (Sample.mpd "dynamic" 100 Sample.tracks)
              (Period.mk 0 Sample.tracks) ltac:(discriminate) ltac:(discriminate))
    as (Hpos & _ & _ & Hdefault).
  split; [exact Hpos|]. apply Hdefault; reflexivity.
Defined.

(* --------------------------------------------------------------------- *)
(** *** DASHStreamWorker: what reloads keep, and how a cycle ends *)
(* --------------------------------------------------------------------- *)

Section Reloads.

Import DASHStreamWorker.

Lemma continues_refl (mpd : MPD.t) : continues mpd mpd.
Proof. unfold continues. repeat split; lia. Qed.

Lemma continues_trans (a b c : MPD.t) :
  continues a b -> continues b c -> continues a c.
Proof.
  unfold continues. intros (Hu & Hb & Ht & Hp) (Hu' & Hb' & Ht' & Hp').
  repeat split; try congruence. lia.
Qed.

(** The snapshot after a reload continues the one before, whatever the
    outcome of the reload. *)
Lemma reload_continues (w : World) :
  continues (self_mpd w) (self_mpd (reload w).2).
Proof.
  unfold reload. run.
  destruct (closed_at w (closed_reads w)); cbn; [apply continues_refl|].
  destruct (http_at w (http_gets w)) as [res|]; cbn; [|apply continues_refl].
  destruct (Response.manifest res) as [e|doc]; cbn; [apply continues_refl|].
  destruct (Z.ltb_spec (MPD.publishTime (self_mpd w)) (Doc.publishTime doc)); cbn.
  - unfold continues. cbn. repeat split. lia.
  - apply continues_refl.
Qed.

(** X8. A reload, whatever its outcome, keeps the url the manifest is
    fetched from, the base url and the timelines of the current snapshot,
    and never installs an older manifest. A worker that is not closed
    waits for the buffer and then makes exactly one request, for the
    snapshot's url and without a timeout; a closed one does neither. *)
Theorem reload_keeps_source (w : World) :
  let r := reload w in
  continues (self_mpd w) (self_mpd r.2) /\
  trace r.2
  = trace w ++ (if closed_at w (closed_reads w) then []
                else [EWaitFree; EGet (MPD.url (self_mpd w)) None]) /\
  http_gets r.2 = (http_gets w + (if closed_at w (closed_reads w) then 0 else 1))%nat.
Proof.
  cbn zeta. split; [apply reload_continues|].
  unfold reload. run.
  destruct (closed_at w (closed_reads w)); cbn.
  { rewrite app_nil_r. split; [reflexivity|lia]. }
  destruct (http_at w (http_gets w)) as [res|]; cbn.
  2: { rewrite <- app_assoc. split; [reflexivity|lia]. }
  destruct (Response.manifest res) as [e|doc]; cbn.
  { rewrite <- app_assoc. split; [reflexivity|lia]. }
  destruct (MPD.publishTime (self_mpd w) <? Doc.publishTime doc); cbn;
    rewrite <- app_assoc; (split; [reflexivity|lia]).
Qed.

(** The snapshot after a cycle continues the one before. *)
Lemma cycle_continues (representation_id : string) (init : bool)
      (back_off_factor : Q) (w : World) :
  continues (self_mpd w) (self_mpd (cycle representation_id init back_off_factor w).2).
Proof.
  destruct (MPD.periods (self_mpd w)) as [|period rest] eqn:Hperiods.
  { rewrite cycle_no_period by assumption. apply continues_refl. }
  destruct (find_representation period representation_id) as [rep|] eqn:Hfind.
  - rewrite (cycle_found representation_id init back_off_factor w period rest rep
               Hperiods Hfind). cbn zeta.
    destruct (after_segments_frame (refresh_wait (self_mpd w) period * back_off_factor)
                (Representation.segments rep init) w) as (_ & _ & _ & Hm & _).
    set (w1 := after_segments _ _ _) in *.
    destruct (String.eqb (MPD.type_ (self_mpd w)) "dynamic").
    + pose proof (reload_continues w1) as Hc. rewrite Hm in Hc.
      destruct (reload w1) as [[changed|e|] w2]; exact Hc.
    + cbn [snd]. rewrite Hm. apply continues_refl.
  - rewrite (cycle_missing representation_id init back_off_factor w period rest
               Hperiods Hfind). apply continues_refl.
Qed.

(** X9. Throughout a run of the scheduler, however many cycles it makes
    and whatever the reloads give (a newer manifest, the same one, an
    error), the current snapshot keeps the url, the base url and the
    timelines it started with, and its publish time never goes back. *)
Theorem iter_segments_keeps_source (fuel : nat) (representation_id : string) (w : World) :
  continues (self_mpd w) (self_mpd (iter_segments fuel representation_id w).2).
Proof.
  unfold iter_segments. generalize true, 1%Q. revert w.
  induction fuel as [|fuel IH]; intros w init bof; [apply continues_refl|].
  rewrite loop_step. destruct (closed_at w (closed_reads w)); [apply continues_refl|].
  pose proof (cycle_continues representation_id init bof (read_closed w).2) as Hc.
  change (self_mpd (read_closed w).2) with (self_mpd w) in Hc.
  destruct (cycle representation_id init bof (read_closed w).2)
    as [[[init' bof'|]|e|] w']; cbn [snd] in *; try exact Hc.
  apply continues_trans with (self_mpd w'); [exact Hc | apply IH].
Qed.

(** A reload that fetches a manifest. *)
Lemma reload_fetched (w : World) (res : Response.t) (doc : Doc.t) :
  closed_at w (closed_reads w) = false ->
  http_at w (http_gets w) = Some res ->
  Response.manifest res = inr doc ->
  let changed := MPD.publishTime (self_mpd w) <? Doc.publishTime doc in
  (reload w).1 = Return (Some changed) /\
  self_mpd (reload w).2 = (if changed then reloaded (self_mpd w) doc else self_mpd w) /\
  trace (reload w).2 = trace w ++ [EWaitFree; EGet (MPD.url (self_mpd w)) None] /\
  http_gets (reload w).2 = S (http_gets w).
Proof.
  intros Hopen Hget Hxml. unfold reload. run. rewrite Hopen. cbn.
  rewrite Hget. cbn. rewrite Hxml. cbn. unfold reloaded.
  destruct (MPD.publishTime (self_mpd w) <? Doc.publishTime doc); cbn;
    rewrite <- app_assoc; auto.
Qed.

(** X10. A cycle of an open worker on a dynamic manifest whose
    representation is found, when the server answers with a manifest:
    the timer is started, all segments of the representation are yielded
    in order, then the buffer is waited for and the manifest requested
    once. A strictly newer manifest becomes the snapshot and the next
    cycle starts with back-off factor 1; otherwise the snapshot stays and
    the factor is grown. Either way the next cycle asks for segments
    without initialization. *)
Theorem cycle_reloads_after_segments (representation_id : string) (init : bool)
        (back_off_factor : Q) (w : World) (period : Period.t) (rest : list Period.t)
        (rep : Representation.t) (res : Response.t) (doc : Doc.t) :
  MPD.periods (self_mpd w) = period :: rest ->
  find_representation period representation_id = Some rep ->
  MPD.type_ (self_mpd w) = "dynamic" ->
  (forall i, closed_at w i = false) ->
  http_at w (http_gets w) = Some res ->
  Response.manifest res = inr doc ->
  let r := cycle representation_id init back_off_factor w in
  let changed := MPD.publishTime (self_mpd w) <? Doc.publishTime doc in
  r.1 = Return (Next false (if changed then 1%Q else grow back_off_factor)) /\
  self_mpd r.2 = (if changed then reloaded (self_mpd w) doc else self_mpd w) /\
  trace r.2
  = trace w ++ ESleeper (refresh_wait (self_mpd w) period * back_off_factor)
            :: (EYield <$> Representation.segments rep init)
            ++ [EWaitFree; EGet (MPD.url (self_mpd w)) None] /\
  http_gets r.2 = S (http_gets w).
Proof.
  intros Hperiods Hfind Hdyn Hopen Hget Hxml. cbn zeta.
  rewrite (cycle_found representation_id init back_off_factor w period rest rep
             Hperiods Hfind). cbn zeta. rewrite Hdyn. cbn [String.eqb Ascii.eqb Bool.eqb].
  destruct (after_segments_frame (refresh_wait (self_mpd w) period * back_off_factor)
              (Representation.segments rep init) w) as (Hca & Hha & Hg & Hm & _).
  assert (trace (after_segments (refresh_wait (self_mpd w) period * back_off_factor)
                   (Representation.segments rep init) w)
          = trace w ++ ESleeper (refresh_wait (self_mpd w) period * back_off_factor)
                    :: (EYield <$> Representation.segments rep init)) as Htr.
  { unfold after_segments. rewrite yield_segments_all by (intros i; apply Hopen).
    cbn. now rewrite <- app_assoc. }
  set (w1 := after_segments _ _ _) in *. clearbody w1.
  destruct (reload_fetched w1 res doc) as (Hres & Hm2 & Htr2 & Hg2).
  { rewrite Hca. apply Hopen. }
  { now rewrite Hha, Hg. }
  { exact Hxml. }
  rewrite Hm in Hres, Hm2, Htr2. rewrite Htr in Htr2. rewrite Hg in Hg2.
  destruct (reload w1) as [r w2]. cbn [fst snd] in *. subst r. cbn [fst snd].
  rewrite Hm2, Htr2, Hg2, <- app_assoc. cbn [not_ app].
  now destruct (MPD.publishTime (self_mpd w) <? Doc.publishTime doc).
Qed.

(** X12. A manifest without periods: an open scheduler raises
    [IndexError] on its first pass, before any timer, segment or request. *)
Theorem iter_segments_without_periods (fuel : nat) (representation_id : string) (w : World) :
  MPD.periods (self_mpd w) = [] ->
  closed_at w (closed_reads w) = false ->
  let r := iter_segments (S fuel) representation_id w in
  r.1 = Raise Py.IndexError /\ trace r.2 = trace w /\ http_gets r.2 = http_gets w.
Proof.
  intros Hperiods Hopen. cbn zeta. unfold iter_segments.
  rewrite loop_step, Hopen, cycle_no_period by assumption. now cbn.
Qed.

End Reloads.

(** The stalled sample, one cycle: the three segments, then one reload
    that changes nothing. *)
Lemma cycle_reloads_after_segments_witness :
  let r := DASHStreamWorker.cycle "v1" true 1 Sample.stalled in
  r.1 = Return (DASHStreamWorker.Next false (DASHStreamWorker.grow 1)) /\
  self_mpd r.2 = self_mpd Sample.stalled /\
  trace r.2 = [ESleeper (5 * 1);
               EYield (Sample.seg "v1/init.mp4" 0);
               EYield (Sample.seg "v1/1.m4s" 10);
               EYield (Sample.seg "v1/2.m4s" 20);
               EWaitFree; EGet "http://host/live/m.mpd" None].
Proof.
  destruct (cycle_reloads_after_segments "v1" true 1 Sample.stalled
              (Period.mk 0 Sample.tracks) [] Sample.video_720
              (Sample.response (inr (Sample.doc "dynamic" 100 Sample.tracks)))
              (Sample.doc "dynamic" 100 Sample.tracks)
              eq_refl eq_refl eq_refl (fun _ => eq_refl) eq_refl eq_refl)
    as (Hres & Hm & Htr & _).
  split; [exact Hres|]. split; [exact Hm | exact Htr].
Defined.

(** A world whose manifest has no period at all. *)
Lemma iter_segments_without_periods_witness :
  let w := Sample.world Sample.never_closed (fun _ => None)
             (MPD.mk "static" 1 0 [] "http://host" "http://host/m.mpd" []) in
  (DASHStreamWorker.iter_segments 1 "v1" w).1 = Raise Py.IndexError.
Proof.
  exact (proj1 (iter_segments_without_periods 0 "v1"
                  (Sample.world Sample.never_closed (fun _ => None)
                     (MPD.mk "static" 1 0 [] "http://host" "http://host/m.mpd" []))
                  eq_refl eq_refl)).
Defined.

(* --------------------------------------------------------------------- *)
(** *** DASHStreamWorker.iter_segments: closing the worker *)
(* --------------------------------------------------------------------- *)

Section Closing.

Import DASHStreamWorker.

(** When the first [k] reads of the flag find it clear and the next one,
    if there is a segment left, finds it set, the first [k] segments are
    yielded. *)
Lemma yield_segments_until (segments : list Segment.t) :
  forall (k : nat) (w : World),
    (k <= length segments)%nat ->
    (forall i, (i < k)%nat -> closed_at w (closed_reads w + i) = false) ->
    ((k < length segments)%nat -> closed_at w (closed_reads w + k) = true) ->
    trace (yield_segments segments w).2 = trace w ++ (EYield <$> take k segments) /\
    closed_reads (yield_segments segments w).2
    = (closed_reads w + (if (k <? length segments)%nat then S k else k))%nat.
Proof.
  induction segments as [|segment rest IH]; intros k w Hk Hbefore Hat.
  - cbn in Hk. assert (k = 0)%nat as -> by lia. cbn.
    rewrite app_nil_r. split; [reflexivity|lia].
  - cbn [yield_segments]. run. destruct k as [|k].
    + assert (closed_at w (closed_reads w) = true) as ->
          by (rewrite <- (Nat.add_0_r (closed_reads w)); apply Hat; cbn; lia).
      cbn. rewrite app_nil_r. split; [reflexivity|lia].
    + assert (closed_at w (closed_reads w) = false) as ->
          by (rewrite <- (Nat.add_0_r (closed_reads w)); apply Hbefore; lia).
      destruct (IH k (mkWorld (closed_at w) (S (closed_reads w)) (http_at w)
                              (http_gets w) (clock w) (buffer w) (self_mpd w)
                              (trace w ++ [EYield segment]))) as [Htr Hreads].
      * cbn in Hk. lia.
      * intros i Hi. cbn [closed_at closed_reads].
        replace (S (closed_reads w) + i)%nat with (closed_reads w + S i)%nat by lia.
        apply Hbefore. lia.
      * intros Hlt. cbn [closed_at closed_reads].
        replace (S (closed_reads w) + k)%nat with (closed_reads w + S k)%nat by lia.
        apply Hat. cbn. lia.
      * fields. rewrite Htr, Hreads. cbn [take fmap list_fmap length].
        rewrite <- app_assoc. split; [reflexivity|].
        destruct (Nat.ltb_spec k (length rest)),
                 (Nat.leb_spec (S k) (length rest)); lia.
Qed.

(** X11. Closing the worker ends the scheduler cleanly. When the flag is
    clear for the check of the loop and for the first [c] segments of the
    cycle, and set from then on, the generator returns normally after
    yielding exactly those [c] segments: no further segment, no request
    for the manifest, no wait for the buffer, and the snapshot as it was,
    for a dynamic manifest as for a static one. *)
Theorem closing_stops_the_scheduler (fuel : nat) (representation_id : string)
        (init : bool) (back_off_factor : Q) (w : World)
        (period : Period.t) (rest : list Period.t) (rep : Representation.t) (c : nat) :
  MPD.periods (self_mpd w) = period :: rest ->
  find_representation period representation_id = Some rep ->
  (c <= length (Representation.segments rep init))%nat ->
  (forall i, (i <= c)%nat -> closed_at w (closed_reads w + i) = false) ->
  (forall i, (c < i)%nat -> closed_at w (closed_reads w + i) = true) ->
  let r := loop (S (S fuel)) representation_id init back_off_factor w in
  r.1 = Return tt /\
  trace r.2
  = trace w ++ ESleeper (refresh_wait (self_mpd w) period * back_off_factor)
            :: (EYield <$> take c (Representation.segments rep init)) /\
  http_gets r.2 = http_gets w /\ self_mpd r.2 = self_mpd w.
Proof.
  intros Hperiods Hfind Hc Hclear Hset. cbn zeta.
  rewrite loop_step.
  assert (closed_at w (closed_reads w) = false) as ->
      by (rewrite <- (Nat.add_0_r (closed_reads w)); apply Hclear; lia).
  rewrite (cycle_found representation_id init back_off_factor (read_closed w).2
             period rest rep Hperiods Hfind). cbn zeta.
  change (self_mpd (read_closed w).2) with (self_mpd w).
  destruct (after_segments_frame (refresh_wait (self_mpd w) period * back_off_factor)
              (Representation.segments rep init) (read_closed w).2)
    as (Hca & _ & Hg & Hm & _).
  destruct (yield_segments_until (Representation.segments rep init) c
              (emit (ESleeper (refresh_wait (self_mpd w) period * back_off_factor))
                    (read_closed w).2).2 Hc) as [Htr Hreads].
  { intros i Hi. cbn [emit read_closed snd closed_at closed_reads].
    replace (S (closed_reads w) + i)%nat with (closed_reads w + S i)%nat by lia.
    apply Hclear. lia. }
  { intros Hlt. cbn [emit read_closed snd closed_at closed_reads].
    replace (S (closed_reads w) + c)%nat with (closed_reads w + S c)%nat by lia.
    apply Hset. lia. }
  fold (after_segments (refresh_wait (self_mpd w) period * back_off_factor)
          (Representation.segments rep init) (read_closed w).2) in Htr, Hreads.
  set (w1 := after_segments _ _ _) in *. clearbody w1.
  cbn [emit read_closed snd closed_at closed_reads http_gets self_mpd trace]
    in Hca, Hg, Hm, Htr, Hreads.
  rewrite <- app_assoc in Htr. cbn [app] in Htr.
  assert (exists d, closed_reads w1 = (closed_reads w + S (c + d))%nat) as [d Hd].
  { destruct (c <? length (Representation.segments rep init))%nat.
    - exists 1%nat. lia.
    - exists 0%nat. lia. }
  assert (closed_at w1 (closed_reads w1) = true) as Hclosed1
      by (rewrite Hca, Hd; apply Hset; lia).
  destruct (String.eqb (MPD.type_ (self_mpd w)) "dynamic").
  - rewrite reload_closed by assumption. cbn [not_].
    rewrite loop_step. cbn [read_closed snd closed_at closed_reads].
    assert (closed_at w1 (S (closed_reads w1)) = true) as ->
        by (rewrite Hca, Hd;
            replace (S (closed_reads w + S (c + d)))
              with (closed_reads w + S (S (c + d)))%nat by lia;
            apply Hset; lia).
    cbn [fst snd http_gets self_mpd trace]. auto.
  - cbn [fst snd]. auto.
Qed.

End Closing.

(** The stalled sample with the flag set from its third read on: the loop
    check and the first segment pass, then the generator returns. *)
Lemma closing_stops_the_scheduler_witness :
  let w := Sample.world Sample.closed_from_third
             (fun _ => Some (Sample.response (inr (Sample.doc "dynamic" 100 Sample.tracks))))
             (Sample.mpd "dynamic" 100 Sample.tracks) in
  let r := DASHStreamWorker.loop 2 "v1" true 1 w in
  r.1 = Return tt /\
  trace r.2 = [ESleeper (5 * 1); EYield (Sample.seg "v1/init.mp4" 0)] /\
  http_gets r.2 = 0%nat.
Proof.
  destruct (closing_stops_the_scheduler 0 "v1" true 1
              (Sample.world Sample.closed_from_third
                 (fun _ => Some (Sample.response
                                   (inr (Sample.doc "dynamic" 100 Sample.tracks))))
                 (Sample.mpd "dynamic" 100 Sample.tracks))
              (Period.mk 0 Sample.tracks) [] Sample.video_720 1
              eq_refl eq_refl ltac:(cbn; lia))
    as (Hres & Htr & Hg & _).
  - intros [|[|i]] Hi; [reflexivity|reflexivity|lia].
  - intros [|[|i]] Hi; [lia|lia|reflexivity].
  - split; [exact Hres|]. split; [exact Htr | exact Hg].
Defined.

(* --------------------------------------------------------------------- *)
(** *** DASHStream.parse_manifest: the base url *)
(* --------------------------------------------------------------------- *)

Section BaseUrl.

Import DASHStream.

(** [rsplit(sep, 1)] cuts at the last separator, and leaves a string
    without separator whole. *)
Lemma rsplit1_cases (sep : ascii) (s : string) :
  if occurs sep s
  then exists dir file, Py.rsplit1 sep s = [dir; file] /\
                        s = dir +:+ String sep file /\ occurs sep file = false
  else Py.rsplit1 sep s = [s].
Proof.
  induction s as [|c rest IH]; [reflexivity|].
  cbn [occurs Py.rsplit1]. revert IH. destruct (occurs sep rest) eqn:Hrest; intros IH.
  - rewrite orb_true_r. destruct IH as (dir & file & -> & -> & Hfile).
    exists (String c dir), file. repeat split. exact Hfile.
  - rewrite orb_false_r, IH. destruct (Ascii.eqb_spec c sep) as [->|Hne].
    + exists EmptyString, rest. repeat split. exact Hrest.
    + reflexivity.
Qed.

(** X13. The base url is built from the parts of the manifest url with
    the last segment of the path cut off: when the path contains "/", it
    is replaced by what stands before its last "/" (the other parts are
    left alone, and what is cut off contains no "/"). A path without "/"
    cannot be unpacked and raises [ValueError]. *)
Theorem strip_last_segment_cuts_path (urlp : list string) (path : string) :
  urlp !! 2%nat = Some path ->
  (occurs "/" path = true ->
   exists dir file,
     strip_last_segment urlp = inr (<[2%nat := dir]> urlp) /\
     path = dir +:+ "/" +:+ file /\ occurs "/" file = false) /\
  (occurs "/" path = false -> strip_last_segment urlp = inl Py.ValueError).
Proof.
  intros Hpath. unfold strip_last_segment. rewrite Hpath.
  pose proof (rsplit1_cases "/" path) as Hsplit. split; intros Hocc; rewrite Hocc in Hsplit.
  - destruct Hsplit as (dir & file & -> & -> & Hfile). now exists dir, file.
  - now rewrite Hsplit.
Qed.

Variable urlparse : string -> list string.
Variable urlunparse : list string -> string.

(** X14. A manifest whose final url has a path without "/" (an empty
    path, say) cannot be listed: [parse_manifest] raises [ValueError]
    after the request and before the manifest is parsed, whatever the
    manifest is. *)
Theorem parse_manifest_needs_a_path (url : string) (w : World)
        (res : Response.t) (path : string) :
  http_at w (http_gets w) = Some res ->
  urlparse (Response.url res) !! 2%nat = Some path ->
  occurs "/" path = false ->
  let r := parse_manifest urlparse urlunparse url w in
  r.1 = Raise Py.ValueError /\ http_gets r.2 = S (http_gets w).
Proof.
  intros Hget Hpath Hocc. cbn zeta.
  assert (strip_last_segment (urlparse (Response.url res)) = inl Py.ValueError) as Hstrip.
  { unfold strip_last_segment. rewrite Hpath.
    pose proof (rsplit1_cases "/" path) as Hsplit. rewrite Hocc in Hsplit.
    now rewrite Hsplit. }
  assert (parse_manifest urlparse urlunparse url w
          = (Raise Py.ValueError,
             (http_get url None (Py.PluginError "Unable to open URL") w).2)) as ->.
  { unfold parse_manifest. unfold mbind at 1, M_bind at 1, http_get.
    rewrite Hget, Hstrip. reflexivity. }
  unfold http_get. rewrite Hget. now cbn.
Qed.

End BaseUrl.

(** The sample url: the path "/live/m.mpd" is cut to "/live". *)
Lemma strip_last_segment_cuts_path_witness :
  exists dir file,
    DASHStream.strip_last_segment (Sample.urlparse "http://host/live/m.mpd")
    = inr (<[2%nat := dir]> (Sample.urlparse "http://host/live/m.mpd")) /\
    "/live/m.mpd" = dir +:+ "/" +:+ file /\ occurs "/" file = false.
Proof.
  exact (proj1 (strip_last_segment_cuts_path
                  (Sample.urlparse "http://host/live/m.mpd") "/live/m.mpd" eq_refl)
               eq_refl).
Defined.

(** A manifest served from the root of a host, with an empty path. *)
Lemma parse_manifest_needs_a_path_witness :
  let w := Sample.world Sample.never_closed
             (fun _ => Some (Response.mk "http://host" (fun _ => [])
                                         (inr (Sample.doc "static" 1 Sample.tracks))))
             (Sample.mpd "static" 1 []) in
  (DASHStream.parse_manifest (fun _ => ["http"; "host"; ""; ""; ""; ""])
     Sample.urlunparse "http://host" w).1 = Raise Py.ValueError.
Proof.
  exact (proj1 (parse_manifest_needs_a_path
                  (fun _ => ["http"; "host"; ""; ""; ""; ""]) Sample.urlunparse
                  "http://host"
                  (Sample.world Sample.never_closed
                     (fun _ => Some (Response.mk "http://host" (fun _ => [])
                                       (inr (Sample.doc "static" 1 Sample.tracks))))
                     (Sample.mpd "static" 1 []))
                  (Response.mk "http://host" (fun _ => [])
                               (inr (Sample.doc "static" 1 Sample.tracks)))
                  "" eq_refl eq_refl eq_refl)).
Defined.

(* --------------------------------------------------------------------- *)
(** *** DASHStream.parse_manifest: what the variants are made of *)
(* --------------------------------------------------------------------- *)

Section Made.

Import DASHStream.

(** A search that returns has met no protected set, and changed nothing. *)
Lemma search_returns (url : string) (asets : list AdaptationSet.t) :
  forall found w f w',
    search url asets found w = (Return f, w') ->
    Forall (fun aset => AdaptationSet.contentProtection aset = false) asets /\ w' = w.
Proof.
  induction asets as [|aset asets IH]; intros found w f w' Hsearch.
  - cbn in Hsearch. injection Hsearch as _ <-. split; [constructor|reflexivity].
  - cbn [search] in Hsearch.
    destruct (AdaptationSet.contentProtection aset) eqn:Hp; [discriminate|].
    destruct (IH _ _ _ _ Hsearch) as [Hrest ->]. split; [now constructor|reflexivity].
Qed.

(** Every stream of the dict that [build] returns was there before or is
    the stream of one of the pairs. *)
Lemma build_values (mpd : MPD.t) (audio : list (option Representation.t))
      (pairs : list (option Representation.t * option Representation.t)) :
  forall ret w ret' w',
    build mpd audio pairs ret w = (Return ret', w') ->
    w' = w /\
    forall name s,
      ret' !! name = Some s ->
      ret !! name = Some s \/
      exists vid aud, In (vid, aud) pairs /\ s = DASHStream.new mpd vid aud.
Proof.
  induction pairs as [|[vid aud] pairs IH]; intros ret w ret' w' Hbuild.
  - cbn in Hbuild. injection Hbuild as <- <-. split; [reflexivity|]. now left.
  - cbn [build] in Hbuild. unfold mbind, M_bind, lift in Hbuild.
    destruct (stream_name audio vid aud) as [e|name0]; [discriminate|].
    cbn in Hbuild. destruct (IH _ _ _ _ Hbuild) as [-> Hvalues].
    split; [reflexivity|]. intros name s Hlook.
    destruct (Hvalues name s Hlook) as [Hin|(vid' & aud' & Hin & ->)].
    + destruct (decide (name0 = name)) as [->|Hne].
      * rewrite lookup_insert_eq in Hin. injection Hin as <-.
        right. exists vid, aud. split; [now left|reflexivity].
      * rewrite lookup_insert_ne in Hin by assumption. now left.
    + right. exists vid', aud'. split; [now right|reflexivity].
Qed.

Lemma or_none_elem (l : list Representation.t) (x : option Representation.t) :
  In x (or_none l) ->
  (x = None /\ l = []) \/ exists rep, x = Some rep /\ In rep l.
Proof.
  destruct l as [|rep l]; cbn [or_none].
  - intros [<-|[]]. now left.
  - intros Hin. apply in_map_iff in Hin as (rep' & <- & Hin). right. now exists rep'.
Qed.

Lemma choice_of_track (f : Representation.t -> bool) (period : Period.t)
      (x : option Representation.t) :
  In x (or_none (List.filter f (representations_of period))) -> of_track f period x.
Proof.
  intros Hin. apply or_none_elem in Hin as [[-> Hnil]|(rep & -> & Hin)]; cbn.
  - intros rep Hin. destruct (f rep) eqn:Hf; [|reflexivity].
    assert (In rep (List.filter f (representations_of period))) as Hin'
        by (apply filter_In; now split).
    rewrite Hnil in Hin'. destruct Hin'.
  - apply filter_In in Hin as [Hin Hf]. now split.
Qed.

(** What a selection that returns has put in the dict. *)
Lemma select_returns (url : string) (mpd : MPD.t) (period : Period.t)
      (rest : list Period.t) (w w' : World) (ret : gmap string DASHStream.t) :
  MPD.periods mpd = period :: rest ->
  select url mpd w = (Return ret, w') ->
  w' = w /\
  forall name s,
    ret !! name = Some s ->
    exists vid aud, In vid (video_choices period) /\ In aud (audio_choices period) /\
                    s = DASHStream.new mpd vid aud.
Proof.
  intros Hperiods Hselect. unfold select, DASHStreamWorker.first_period in Hselect.
  rewrite Hperiods in Hselect.
  unfold mbind at 1, M_bind at 1, mret at 1, M_ret at 1 in Hselect.
  unfold mbind at 1, M_bind at 1 in Hselect.
  destruct (search url (Period.adaptationSets period) ([], []) w) as [[found|e|] w1] eqn:Hsearch;
    try discriminate.
  destruct (search_returns _ _ _ _ _ _ Hsearch) as [Hfree ->].
  rewrite search_unprotected in Hsearch by assumption. injection Hsearch as <-.
  cbn [fst snd app] in Hselect.
  destruct (build_values _ _ _ _ _ _ _ Hselect) as [-> Hvalues].
  split; [reflexivity|]. intros name s Hlook.
  destruct (Hvalues name s Hlook) as [Hin|(vid & aud & Hin & ->)].
  - rewrite lookup_empty in Hin. discriminate.
  - apply in_prod_iff in Hin as [Hv Ha]. now exists vid, aud.
Qed.

(** X15. Every variant that selection returns is made of the manifest it
    was given and of representations of its first period: the video
    representation is one whose media type starts with "video", the audio
    representation one whose media type starts with "audio", and a
    variant lacks a track only when the period has no representation of
    that type. Selection itself changes nothing in the world. *)
Theorem select_variants_from_period (url : string) (mpd : MPD.t) (period : Period.t)
        (rest : list Period.t) (w w' : World) (ret : gmap string DASHStream.t) :
  MPD.periods mpd = period :: rest ->
  select url mpd w = (Return ret, w') ->
  w' = w /\
  forall name s,
    ret !! name = Some s ->
    DASHStream.mpd s = mpd /\
    of_track is_video period (video_representation s) /\
    of_track is_audio period (audio_representation s).
Proof.
  intros Hperiods Hselect.
  destruct (select_returns url mpd period rest w w' ret Hperiods Hselect) as [-> Hvalues].
  split; [reflexivity|]. intros name s Hlook.
  destruct (Hvalues name s Hlook) as (vid & aud & Hv & Ha & ->). cbn.
  split; [reflexivity|]. split; now apply choice_of_track.
Qed.

(** X16. When selection returns over a period that has a video or an
    audio representation, every variant it returns can be opened: [open]
    gives a stream, never [None], a reader on a video or audio
    representation of the period or the muxer over one of each. *)
Theorem selected_variants_open (url : string) (mpd : MPD.t) (period : Period.t)
        (rest : list Period.t) (w w' : World) (ret : gmap string DASHStream.t) :
  MPD.periods mpd = period :: rest ->
  select url mpd w = (Return ret, w') ->
  (exists rep, In rep (representations_of period) /\
               (is_video rep = true \/ is_audio rep = true)) ->
  forall name s w0,
    ret !! name = Some s ->
    exists o, (open s w0).1 = Return (Some o) /\ opened_from period o.
Proof.
  intros Hperiods Hselect (rep & Hin & Htype) name s w0 Hlook.
  destruct (select_returns url mpd period rest w w' ret Hperiods Hselect) as [_ Hvalues].
  destruct (Hvalues name s Hlook) as (vid & aud & Hv & Ha & ->).
  apply choice_of_track in Hv, Ha.
  destruct vid as [v|], aud as [a|]; cbn in Hv, Ha.
  - exists (Muxed (Representation.id v) (Representation.id a)). split; [reflexivity|].
    destruct Hv, Ha. split; [exists v | exists a]; auto.
  - exists (Reader (Representation.id v)). split; [reflexivity|].
    destruct Hv. exists v. auto.
  - exists (Reader (Representation.id a)). split; [reflexivity|].
    destruct Ha. exists a. auto.
  - exfalso. destruct Htype as [Hvid|Haud].
    + rewrite (Hv rep Hin) in Hvid. discriminate.
    + rewrite (Ha rep Hin) in Haud. discriminate.
Qed.

Variable urlparse : string -> list string.
Variable urlunparse : list string -> string.

(** X17. The streams that [parse_manifest] returns all carry the manifest
    under the final url of the response (after redirects), not the url
    asked for: [to_url] gives that url, the base url is built from its
    parts with the last path segment cut off, and the timelines start
    empty. *)
Theorem parse_manifest_streams_url (url : string) (w : World)
        (res : Response.t) (urlp : list string) (doc : Doc.t)
        (ret : gmap string DASHStream.t) :
  http_at w (http_gets w) = Some res ->
  strip_last_segment (urlparse (Response.url res)) = inr urlp ->
  Response.manifest res = inr doc ->
  (parse_manifest urlparse urlunparse url w).1 = Return ret ->
  forall name s,
    ret !! name = Some s ->
    to_url s = Response.url res /\
    MPD.base_url (DASHStream.mpd s) = urlunparse urlp /\
    MPD.timelines (DASHStream.mpd s) = [] /\
    MPD.periods (DASHStream.mpd s) = Doc.periods doc.
Proof.
  intros Hget Hstrip Hxml Hparse name s Hlook. unfold parse_manifest in Hparse.
  unfold mbind at 1, M_bind at 1, http_get at 1 in Hparse. rewrite Hget, Hstrip in Hparse.
  unfold mbind at 1, M_bind at 1, lift at 1, mret at 1, M_ret at 1 in Hparse.
  unfold mbind at 1, M_bind at 1, http_xml at 1 in Hparse. rewrite Hxml in Hparse.
  unfold lift, mret at 1, M_ret at 1 in Hparse.
  set (w1 := mkWorld _ _ _ _ _ _ _ _) in Hparse.
  set (m := MPD.new doc (urlunparse urlp) (Response.url res) []) in Hparse.
  destruct (select (Response.url res) m w1) as [r w2] eqn:Hselect.
  cbn [fst] in Hparse. subst r.
  destruct (MPD.periods m) as [|period rest] eqn:Hperiods.
  { unfold select, DASHStreamWorker.first_period in Hselect. rewrite Hperiods in Hselect.
    discriminate. }
  destruct (select_returns _ _ _ _ _ _ _ Hperiods Hselect) as [_ Hvalues].
  destruct (Hvalues name s Hlook) as (vid & aud & _ & _ & ->).
  unfold to_url. cbn. auto.
Qed.

End Made.

(** The sample manifest: one variant, "720p", of the video and the audio
    representation of its period. *)
Lemma select_variants_from_period_witness :
  let m := Sample.mpd "static" 1 Sample.tracks in
  let s := DASHStream.new m (Some Sample.video_720) (Some Sample.audio_128) in
  DASHStream.select "u" m Sample.on_demand
  = (Return ({[ "720p" := s ]} : gmap string DASHStream.t), Sample.on_demand) /\
  DASHStream.mpd s = m /\
  of_track is_video (Period.mk 0 Sample.tracks) (DASHStream.video_representation s) /\
  of_track is_audio (Period.mk 0 Sample.tracks) (DASHStream.audio_representation s).
Proof.
  cbn zeta.
  assert (DASHStream.select "u" (Sample.mpd "static" 1 Sample.tracks) Sample.on_demand
          = (Return ({[ "720p" := DASHStream.new (Sample.mpd "static" 1 Sample.tracks)
                                    (Some Sample.video_720) (Some Sample.audio_128) ]}
                     : gmap string DASHStream.t),
             Sample.on_demand)) as Hselect by (vm_compute; reflexivity).
  split; [exact Hselect|].
  destruct (select_variants_from_period "u" (Sample.mpd "static" 1 Sample.tracks)
              (Period.mk 0 Sample.tracks) [] Sample.on_demand Sample.on_demand
              _ eq_refl Hselect) as [_ Hall].
  apply (Hall "720p"). vm_compute. reflexivity.
Defined.

(** The variant of the sample manifest opens to the muxer over "v1" and
    "a1". *)
Lemma selected_variants_open_witness :
  let m := Sample.mpd "static" 1 Sample.tracks in
  exists o,
    (DASHStream.open (DASHStream.new m (Some Sample.video_720) (Some Sample.audio_128))
       Sample.on_demand).1 = Return (Some o) /\
    opened_from (Period.mk 0 Sample.tracks) o.
Proof.
  cbn zeta.
  assert (DASHStream.select "u" (Sample.mpd "static" 1 Sample.tracks) Sample.on_demand
          = (Return ({[ "720p" := DASHStream.new (Sample.mpd "static" 1 Sample.tracks)
                                    (Some Sample.video_720) (Some Sample.audio_128) ]}
                     : gmap string DASHStream.t),
             Sample.on_demand)) as Hselect by (vm_compute; reflexivity).
  assert (exists rep, In rep (representations_of (Period.mk 0 Sample.tracks)) /\
                      (is_video rep = true \/ is_audio rep = true)) as Hsome
      by (exists Sample.video_720; split; [now left | now left]).
  apply (selected_variants_open "u" (Sample.mpd "static" 1 Sample.tracks)
           (Period.mk 0 Sample.tracks) [] Sample.on_demand Sample.on_demand
           _ eq_refl Hselect Hsome "720p").
  vm_compute. reflexivity.
Defined.

(** The sample manifest asked for under a short url that redirects. *)
Lemma parse_manifest_streams_url_witness :
  let w := Sample.world Sample.never_closed
             (fun _ => Some (Sample.response (inr (Sample.doc "static" 1 Sample.tracks))))
             (Sample.mpd "static" 1 []) in
  let s := DASHStream.new (Sample.mpd "static" 1 Sample.tracks)
             (Some Sample.video_720) (Some Sample.audio_128) in
  (DASHStream.parse_manifest Sample.urlparse Sample.urlunparse "http://short/x" w).1
  = Return ({[ "720p" := s ]} : gmap string DASHStream.t) /\
  DASHStream.to_url s = "http://host/live/m.mpd" /\
  MPD.base_url (DASHStream.mpd s) = "http://host/live".
Proof.
  cbn zeta.
  assert ((DASHStream.parse_manifest Sample.urlparse Sample.urlunparse "http://short/x"
             (Sample.world Sample.never_closed
                (fun _ => Some (Sample.response
                                  (inr (Sample.doc "static" 1 Sample.tracks))))
                (Sample.mpd "static" 1 []))).1
          = Return ({[ "720p" := DASHStream.new (Sample.mpd "static" 1 Sample.tracks)
                                   (Some Sample.video_720) (Some Sample.audio_128) ]}
                    : gmap string DASHStream.t)) as Hparse by (vm_compute; reflexivity).
  split; [exact Hparse|].
  destruct (parse_manifest_streams_url Sample.urlparse Sample.urlunparse "http://short/x"
              (Sample.world Sample.never_closed
                 (fun _ => Some (Sample.response (inr (Sample.doc "static" 1 Sample.tracks))))
                 (Sample.mpd "static" 1 []))
              (Sample.response (inr (Sample.doc "static" 1 Sample.tracks)))
              ["http"; "host"; "/live"; ""; ""; ""]
              (Sample.doc "static" 1 Sample.tracks) _
              eq_refl eq_refl eq_refl Hparse "720p"
              (DASHStream.new (Sample.mpd "static" 1 Sample.tracks)
                 (Some Sample.video_720) (Some Sample.audio_128)))
    as (Hurl & Hbase & _).
  - vm_compute. reflexivity.
  - split; [exact Hurl | exact Hbase].
Defined.

(* --------------------------------------------------------------------- *)
(** *** DASHStream.parse_manifest: names by height *)
(* --------------------------------------------------------------------- *)

Section Names.

Import DASHStream.










End Names.

